(** * robovac_logger: a shallow embedding of the RoboVac live logger

    The script [robovac_logger.py] authenticates against the Eufy cloud,
    selects the first usable vacuum of the account, waits for the device to
    announce itself on the LAN, opens a local session and prints a diff of
    the device state on every update.

    The embedding keeps Python's dynamic values ([pyval]), its truthiness and
    its [==], models exceptions with a sum type and threads the log and the
    standard output as explicit event lists.  External collaborators (cloud
    clients, the region tables, the broadcast listener, the device session)
    are parameters. *)

From Stdlib Require Import ZArith QArith.
From stdpp Require Import base option list strings gmap fin_maps.

Set Warnings "-register-all".

Local Open Scope Z_scope.
Local Open Scope string_scope.
Local Open Scope list_scope.

(** ** Python values *)

Module Py.

(** JSON-like values as they come out of [response.json()] and of the device
    state.  A string is a sequence of characters, one [ascii] each; a nested
    JSON object is kept as an association list in insertion order; floating
    point numbers are outside of the model. *)
Inductive pyval : Type :=
  | VNone : pyval
  | VBool : bool -> pyval
  | VInt  : Z -> pyval
  | VStr  : string -> pyval
  | VList : list pyval -> pyval
  | VDict : list (string * pyval) -> pyval.

(** A JSON object: keys in insertion order. *)
Abbreviation dict := (list (string * pyval)).

(** [d.get(key)] on an object, before the default is applied. *)
Fixpoint dict_lookup (key : string) (d : dict) : option pyval :=
  match d with
  | [] => None
  | (k, v) :: d' => if String.eqb k key then Some v else dict_lookup key d'
  end.

(** [key in d] *)
Definition dict_has (key : string) (d : dict) : bool :=
  match dict_lookup key d with Some _ => true | None => false end.

(** [d.get(key, default)] *)
Definition dict_get_default (key : string) (default : pyval) (d : dict) : pyval :=
  match dict_lookup key d with Some v => v | None => default end.

(** [d.get(key)]: the default is [None]. *)
Definition dict_get (key : string) (d : dict) : pyval :=
  dict_get_default key VNone d.

(** [d[key] = v] on an object: overwrite in place or append. *)
Fixpoint dict_set (key : string) (v : pyval) (d : dict) : dict :=
  match d with
  | [] => [(key, v)]
  | (k, w) :: d' =>
      if String.eqb k key then (k, v) :: d' else (k, w) :: dict_set key v d'
  end.

(** Python's [bool(v)]. *)
Definition truthy (v : pyval) : bool :=
  match v with
  | VNone => false
  | VBool b => b
  | VInt z => negb (z =? 0)%Z
  | VStr s => negb (String.eqb s "")
  | VList l => match l with [] => false | _ => true end
  | VDict d => match d with [] => false | _ => true end
  end.

(** [a or b] *)
Definition py_or (a b : pyval) : pyval := if truthy a then a else b.

Definition bool_to_Z (b : bool) : Z := if b then 1 else 0.

(** Python's [a == b]: [bool] is a subclass of [int] ([True == 1]), lists are
    compared element by element and objects key by key, whatever the order of
    their keys. *)
Fixpoint py_eqb (a b : pyval) {struct a} : bool :=
  match a, b with
  | VNone, VNone => true
  | VBool x, VBool y => Bool.eqb x y
  | VBool x, VInt y => (bool_to_Z x =? y)%Z
  | VInt x, VBool y => (x =? bool_to_Z y)%Z
  | VInt x, VInt y => (x =? y)%Z
  | VStr x, VStr y => String.eqb x y
  | VList xs, VList ys =>
      (fix go (xs ys : list pyval) {struct xs} : bool :=
         match xs, ys with
         | [], [] => true
         | x :: xs', y :: ys' => py_eqb x y && go xs' ys'
         | _, _ => false
         end) xs ys
  | VDict d1, VDict d2 =>
      (length d1 =? length d2)%nat &&
      (fix go (d : dict) {struct d} : bool :=
         match d with
         | [] => true
         | (k, v) :: d' =>
             match dict_lookup k d2 with
             | Some w => py_eqb v w
             | None => false
             end && go d'
         end) d1
  | _, _ => false
  end.

(** [a != b] *)
Definition py_neb (a b : pyval) : bool := negb (py_eqb a b).

(** ** Exceptions *)

(** The text of an exception is kept unrendered: string literals and the
    values interpolated by an f-string or by [str()]. *)
Inductive piece : Type :=
  | Lit (s : string)
  | Interp (v : pyval).

Abbreviation message := (list piece).

Inductive exn : Type :=
  | VacuumLoginError (msg : message)
  | ModelNotSupportedException (msg : message)
  | DiscoveryPortsNotAvailableException (msg : message)
  | SystemExit (msg : message)
  | KeyError (key : string)
  | AttributeError
  | TypeError
  | InvalidStateError
  | TimeoutError
  | OtherException (msg : message)
  | KeyboardInterrupt
  | CancelledError.

(** [isinstance(e, Exception)]: what [except Exception] catches. *)
Definition is_Exception (e : exn) : bool :=
  match e with
  | SystemExit _ | KeyboardInterrupt | CancelledError => false
  | _ => true
  end.

(** A computation that returns or raises. *)
Inductive result (A : Type) : Type :=
  | Ok (a : A)
  | Raise (e : exn).
Arguments Ok {A} a.
Arguments Raise {A} e.

#[global] Instance result_bind : MBind result :=
  fun A B (k : A -> result B) (r : result A) =>
    match r with
    | Ok a => k a
    | Raise e => Raise e
    end.

#[global] Instance result_ret : MRet result := fun A (a : A) => Ok a.

(** [v.get(key, default)] on an arbitrary value: only objects have [get]. *)
Definition py_get_default (key : string) (default : pyval) (v : pyval) : result pyval :=
  match v with
  | VDict d => Ok (dict_get_default key default d)
  | _ => Raise AttributeError
  end.

Definition py_get (key : string) (v : pyval) : result pyval :=
  py_get_default key VNone v.

(** [v[key]] with a string key. *)
Definition py_index (key : string) (v : pyval) : result pyval :=
  match v with
  | VDict d =>
      match dict_lookup key d with
      | Some w => Ok w
      | None => Raise (KeyError key)
      end
  | _ => Raise TypeError
  end.

(** [needle in s] for two strings. *)
Fixpoint is_substring (needle s : string) : bool :=
  String.prefix needle s ||
  match s with
  | EmptyString => false
  | String _ s' => is_substring needle s'
  end.

(** [key in v] with a string key. *)
Definition py_in (key : string) (v : pyval) : result bool :=
  match v with
  | VDict d => Ok (dict_has key d)
  | VList l => Ok (existsb (py_eqb (VStr key)) l)
  | VStr s => Ok (is_substring key s)
  | _ => Raise TypeError
  end.

(** [for item in v] *)
Definition py_iter (v : pyval) : result (list pyval) :=
  match v with
  | VList l => Ok l
  | VDict d => Ok (map (fun kv => VStr (fst kv)) d)
  | VStr s => Ok (map (fun c => VStr (String c EmptyString)) (String.list_ascii_of_string s))
  | _ => Raise TypeError
  end.

(** [a + v] where [a] is a string literal. *)
Definition py_str_add (a : string) (v : pyval) : result pyval :=
  match v with
  | VStr s => Ok (VStr (String.append a s))
  | _ => Raise TypeError
  end.

(** [v[:n]]; slicing a dictionary raises [TypeError] or, in recent versions
    of Python, [KeyError]: the model keeps [TypeError]. *)
Definition py_slice_to (n : nat) (v : pyval) : result pyval :=
  match v with
  | VStr s => Ok (VStr (String.substring 0 n s))
  | VList l => Ok (VList (firstn n l))
  | _ => Raise TypeError
  end.

End Py.

Import Py.

(** ** The Change Reporter ([log_state_update], closure of [main]) *)

Module Reporter.

(** The device state and the stored snapshot map field names to values; the
    script only looks fields up, iterates over them and dumps them with
    sorted keys, so the order of insertion is immaterial. *)
Abbreviation state := (gmap string pyval).

(** The part of the device session that the callback reads:
    [vacuum.state], which is unset ([None]) or a mapping. *)
Record RoboVac : Type := { rv_state : option state }.

(** What the callback writes on the standard output. *)
Inductive output : Type :=
  | PrintLine (line : string)
  | PrintJson (indent : nat) (sort_keys : bool) (obj : state).

Definition newline : string := String (Ascii.ascii_of_nat 10) EmptyString.

(** [previous_state.get(key)] *)
Definition snapshot_get (previous_state : state) (key : string) : pyval :=
  default VNone (previous_state !! key).

(** The dictionary comprehension of lines 194-198: the keys of
    [current_state] are visited one by one and the selected ones are
    inserted into a fresh dictionary. *)
Definition changes_of (previous_state current_state : state) : state :=
  map_fold
    (fun key value acc =>
       if py_neb (snapshot_get previous_state key) value
       then <[key := value]> acc
       else acc)
    ∅ current_state.

(** [not d] for a dictionary. *)
Definition state_is_empty (d : state) : bool := bool_decide (d = ∅).

(** One call of the callback at time stamp [timestamp]: the new value of the
    closure variable [previous_state] and the lines printed. *)
Definition log_state_update (timestamp : string) (vacuum : option RoboVac)
    (previous_state : state) : state * list output :=
  match vacuum with
  | None => (previous_state, [])
  | Some v =>
      match rv_state v with
      | None => (previous_state, [])
      | Some current_state =>
          if state_is_empty current_state then (previous_state, [])
          else
            let changes := changes_of previous_state current_state in
            let previous_state' := current_state in
            if state_is_empty changes then (previous_state', [])
            else
              (previous_state',
               [ PrintLine (String.concat "" [newline; "["; timestamp; "] Received vacuum update:"]);
                 PrintJson 2 true changes;
                 PrintLine "" ])
      end
  end.

(** The session as the callback sees it when the state is [s]. *)
Definition session_with (s : state) : option RoboVac := Some {| rv_state := Some s |}.

(** The ChangeSet in the words of the specification:
    [{k: current[k] for k in current if previous.get(k) != current[k]}]. *)
Definition spec_ChangeSet (previous current : state) : state :=
  filter (fun kv => py_neb (snapshot_get previous kv.1) kv.2 = true) current.

End Reporter.

(** ** Observable events *)

Module Trace.

Inductive level : Type := DEBUG | INFO | ERROR.

Inductive arg : Type :=
  | ArgVal (v : pyval)
  | ArgExn (e : exn).

(** What the script does to the outside world, in order. *)
Inductive event : Type :=
  (** [_LOGGER.debug/info/error(fmt, *args)] *)
  | Logged (lvl : level) (fmt : string) (args : list arg)
  (** [print(...)] *)
  | Printed (o : Reporter.output)
  (** [ip_future.set_result(v)] *)
  | SetResult (v : pyval)
  (** [discovery.start()] and [discovery.close()] *)
  | ListenerStart
  | ListenerClose
  (** [RoboVac(model_code, device_id, host, local_key, ...)] *)
  | SessionInit (model_code device_id host local_key : pyval)
  (** [vacuum.async_connect()], [vacuum.async_get()], [vacuum.async_disconnect()] *)
  | SessionConnect
  | SessionGet
  | SessionDisconnect.

(** A computation that returns or raises, and acts on the way. *)
Definition traced (A : Type) : Type := result A * list event.

Definition lift {A} (r : result A) : traced A := (r, []).
Definition emit (e : event) : traced unit := (Ok tt, [e]).
Definition raise {A} (e : exn) : traced A := (Raise e, []).

#[global] Instance traced_ret : MRet traced := fun A (a : A) => (Ok a, []).

#[global] Instance traced_bind : MBind traced :=
  fun A B (k : A -> traced B) (m : traced A) =>
    match m.1 with
    | Ok a => let r := k a in (r.1, m.2 ++ r.2)
    | Raise e => (Raise e, m.2)
    end.

(** [try: body  except <class> as err: handler(err)], where [catches] tells
    which exceptions belong to the class. *)
Definition try_except {A} (catches : exn -> bool) (body : traced A)
    (handler : exn -> traced A) : traced A :=
  match body.1 with
  | Ok _ => body
  | Raise err =>
      if catches err
      then let h := handler err in (h.1, body.2 ++ h.2)
      else body
  end.

(** [try: body  finally: cleanup]: the cleanup runs on every exit of the
    body; an exception of the cleanup replaces the outcome of the body. *)
Definition try_finally {A} (body : traced A) (cleanup : traced unit) : traced A :=
  match cleanup.1 with
  | Ok _ => (body.1, body.2 ++ cleanup.2)
  | Raise e => (Raise e, body.2 ++ cleanup.2)
  end.

(** How many times an event occurs in a trace. *)
Definition occurrences (p : event -> bool) (t : list event) : nat :=
  length (List.filter p t).

Definition is_close (e : event) : bool :=
  match e with ListenerClose => true | _ => false end.

Definition is_set_result (e : event) : bool :=
  match e with SetResult _ => true | _ => false end.

Definition is_connect (e : event) : bool :=
  match e with SessionConnect => true | _ => false end.

Definition is_init (e : event) : bool :=
  match e with SessionInit _ _ _ _ => true | _ => false end.

Definition is_disconnect (e : event) : bool :=
  match e with SessionDisconnect => true | _ => false end.

Definition is_printed (e : event) : bool :=
  match e with Printed _ => true | _ => false end.

End Trace.

Import Trace.

(** ** The Account Resolver ([_fetch_first_vacuum_sync]) *)

Module Account.

(** An HTTP response of the Eufy client: [status_code] and [json()]. *)
Record response : Type := { status_code : Z; json : result pyval }.

(** The collaborators imported from the vendored integration.  The session
    objects are represented by their constructor arguments. *)
Record Cloud : Type := {
  (** [EufyLogon(email, password).get_user_info()] *)
  get_user_info : string -> string -> result (option response);
  (** [eufy_session.get_device_info(host, user_id, token)] *)
  get_device_info : string -> string -> pyval -> pyval -> pyval -> result (option response);
  (** [eufy_session.get_user_settings(host, user_id, token)] *)
  get_user_settings : string -> string -> pyval -> pyval -> pyval -> result (option response);
  (** the tables of [countries.py] *)
  get_phone_code_by_country_code : pyval -> result pyval;
  get_phone_code_by_region : pyval -> result pyval;
  get_region_by_country_code : pyval -> result pyval;
  get_region_by_phone_code : pyval -> result pyval;
  (** [TuyaAPISession(username, region, timezone, phone_code)] *)
  TuyaAPISession : pyval -> pyval -> pyval -> pyval -> result unit;
  (** [tuya_client.get_device(device_id)], for the client built from the
      four constructor arguments *)
  get_device : pyval -> pyval -> pyval -> pyval -> pyval -> result pyval
}.

Section Resolver.

Variable cloud : Cloud.

(** Line 78: the nested [get] chain with [{}] defaults. *)
Definition tuya_home_of (settings_data : pyval) : result pyval :=
  setting ← py_get_default "setting" (VDict []) settings_data;
  home_setting ← py_get_default "home_setting" (VDict []) setting;
  py_get_default "tuya_home" (VDict []) home_setting.

(** Lines 79-93: the region and the country code. *)
Definition derive_region (tuya_home user_info : pyval) : result (pyval * pyval) :=
  has_region ← py_in "tuya_region_code" tuya_home;
  if (has_region : bool) then
    code ← py_index "tuya_region_code" tuya_home;
    let region := py_or code (VStr "EU") in
    phone ← py_get "phone_code" user_info;
    if truthy phone then
      country_code ← py_index "phone_code" user_info;
      mret (region, country_code)
    else
      country_code ← get_phone_code_by_region cloud region;
      mret (region, country_code)
  else
    phone ← py_get "phone_code" user_info;
    if truthy phone then
      phone1 ← py_index "phone_code" user_info;
      region ← get_region_by_phone_code cloud phone1;
      country_code ← py_index "phone_code" user_info;
      mret (region, country_code)
    else
      country ← py_get "country" user_info;
      if truthy country then
        country1 ← py_index "country" user_info;
        region ← get_region_by_country_code cloud country1;
        country2 ← py_index "country" user_info;
        country_code ← get_phone_code_by_country_code cloud country2;
        mret (region, country_code)
      else
        mret (VStr "EU", VStr "44").

(** Lines 120-127: the descriptor returned for an accepted device. *)
Definition descriptor (item product access_token : pyval) : result pyval :=
  id ← py_index "id" item;
  alias_name ← py_get "alias_name" item;
  name ← (if truthy alias_name then mret alias_name
           else n ← py_get "name" item; mret (py_or n (VStr "RoboVac")));
  model ← py_get_default "product_code" (VStr "") product;
  description ← py_get_default "name" (VStr "Eufy RoboVac") item;
  wifi ← py_get_default "wifi" (VDict []) item;
  mac ← py_get "mac" wifi;
  mret (VDict [ ("id", id); ("name", name); ("model", model);
                ("description", description); ("mac", mac);
                ("access_token", access_token) ]).

(** Lines 75-93: the region and the country code from the settings and the
    user profile. *)
Definition region_and_country (settings_data user_info : pyval) : result (pyval * pyval) :=
  tuya_home ← tuya_home_of settings_data;
  derive_region tuya_home user_info.

Section Loop.

(** [tuya_client.get_device] *)
Variable client_get_device : pyval -> result pyval.

(** Lines 105-127, the body of the loop for one [item]: [None] stands for
    [continue], [Some d] for [return d]. *)
Definition try_device (item : pyval) : traced (option pyval) :=
  product ← lift (py_get_default "product" (VDict []) item);
  appliance ← lift (py_get "appliance" product);
  if py_neb appliance (VStr "Cleaning") then mret None
  else
    fetched ← try_except is_Exception
      (tuya_device ← lift (id ← py_index "id" item; client_get_device id);
       mret (Some tuya_device))
      (fun err =>
         id ← lift (py_get "id" item);
         emit (Logged DEBUG "Skipping device %s due to Tuya API error: %s"
                 [ArgVal id; ArgExn err]);;
         mret None);
    match fetched with
    | None => mret None
    | Some tuya_device =>
        access_token ← lift (py_get "localKey" tuya_device);
        if negb (truthy access_token) then
          id ← lift (py_get "id" item);
          emit (Logged DEBUG "Device %s does not provide a local key" [ArgVal id]);;
          mret None
        else
          d ← lift (descriptor item product access_token);
          mret (Some d)
    end.

(** Lines 104-129: the loop and the error raised when it runs off the end. *)
Fixpoint scan_devices (devices : list pyval) : traced pyval :=
  match devices with
  | [] =>
      raise (VacuumLoginError [Lit "No RoboVac devices were found on this Eufy account."])
  | item :: rest =>
      r ← try_device item;
      match r with
      | Some d => mret d
      | None => scan_devices rest
      end
  end.

(** The device [item] has a product whose appliance category is
    ["Cleaning"]. *)
Definition cleaning (item product : pyval) : Prop :=
  py_get_default "product" (VDict []) item = Ok product /\
  exists appliance,
    py_get "appliance" product = Ok appliance /\
    py_eqb appliance (VStr "Cleaning") = true.

(** The ways in which a device is passed over, each with what is logged. *)
Inductive rejected (item : pyval) : list event -> Prop :=
  | NotCleaning product appliance :
      py_get_default "product" (VDict []) item = Ok product ->
      py_get "appliance" product = Ok appliance ->
      py_eqb appliance (VStr "Cleaning") = false ->
      rejected item []
  | LookupFailed product err id :
      cleaning item product ->
      (i ← py_index "id" item; client_get_device i) = Raise err ->
      is_Exception err = true ->
      py_get "id" item = Ok id ->
      rejected item
        [Logged DEBUG "Skipping device %s due to Tuya API error: %s" [ArgVal id; ArgExn err]]
  | NoLocalKey product id tuya_device key :
      cleaning item product ->
      py_index "id" item = Ok id ->
      client_get_device id = Ok tuya_device ->
      py_get "localKey" tuya_device = Ok key ->
      truthy key = false ->
      rejected item [Logged DEBUG "Device %s does not provide a local key" [ArgVal id]].

(** The device [item] is a cleaning appliance whose lookup returns the
    non-empty local key [key]; [d] is the descriptor built for it. *)
Definition accepted (item key d : pyval) : Prop :=
  exists product id tuya_device,
    cleaning item product /\
    py_index "id" item = Ok id /\
    client_get_device id = Ok tuya_device /\
    py_get "localKey" tuya_device = Ok key /\
    truthy key = true /\
    descriptor item product key = Ok d.

End Loop.

(** The [response is None] guard followed by [response.json()]. *)
Definition json_or_raise (msg : string) (r : option response) : result pyval :=
  match r with
  | None => Raise (VacuumLoginError [Lit msg])
  | Some resp => json resp
  end.

Definition _fetch_first_vacuum_sync (email password : string) : traced pyval :=
  user_response ← lift (get_user_info cloud email password);
  user_data ← lift
    match user_response with
    | None =>
        Raise (VacuumLoginError
                 [Lit "Failed to reach the Eufy API. Check your credentials or network."])
    | Some resp =>
        if negb (status_code resp =? 200)%Z
        then Raise (VacuumLoginError
                 [Lit "Failed to reach the Eufy API. Check your credentials or network."])
        else json resp
    end;
  res_code ← lift (py_get "res_code" user_data);
  if py_neb res_code (VInt 1)
  then raise (VacuumLoginError [Lit "Authentication with the Eufy API was rejected."])
  else
    user_info ← lift (py_index "user_info" user_data);
    access_token ← lift (py_index "access_token" user_data);
    host ← lift (py_index "request_host" user_info);
    uid ← lift (py_index "id" user_info);
    device_response ← lift (get_device_info cloud email password host uid access_token);
    device_data ← lift
      (json_or_raise "Unable to retrieve the device list from Eufy." device_response);
    host' ← lift (py_index "request_host" user_info);
    uid' ← lift (py_index "id" user_info);
    settings_response ← lift (get_user_settings cloud email password host' uid' access_token);
    settings_data ← lift
      (json_or_raise "Unable to retrieve the user settings from Eufy." settings_response);
    rc ← lift (region_and_country settings_data user_info);
    let region := rc.1 in
    let country_code := rc.2 in
    tz ← lift (py_get "timezone" user_info);
    let timezone := py_or tz (VStr "UTC") in
    uid'' ← lift (py_index "id" user_info);
    username ← lift (py_str_add "eh-" uid'');
    lift (TuyaAPISession cloud username region timezone country_code);;
    devices ← lift (py_get_default "devices" (VList []) device_data);
    items ← lift (py_iter devices);
    scan_devices (get_device cloud username region timezone country_code) items.

(** [fetch_first_vacuum] runs the blocking helper in a worker thread and
    awaits its outcome. *)
Definition fetch_first_vacuum (email password : string) : traced pyval :=
  _fetch_first_vacuum_sync email password.

End Resolver.

End Account.

(** ** The LAN Discovery Listener ([discover_device_ip]) *)

Module Discovery.

(** [asyncio.Future]: pending, holding a result, or cancelled. *)
Inductive future : Type :=
  | Pending
  | Done (value : pyval)
  | Cancelled.

(** [fut.done()] *)
Definition future_done (fut : future) : bool :=
  match fut with Pending => false | _ => true end.

(** [fut.set_result(v)]: raises on a future that is already done. *)
Definition future_set_result (v : pyval) (fut : future) : traced future :=
  match fut with
  | Pending => emit (SetResult v);; mret (Done v)
  | _ => raise InvalidStateError
  end.

(** Lines 142-148: the callback run on every broadcast payload; it returns
    the state of [ip_future] after the call. *)
Definition handle_discovery (device_id : pyval) (payload : dict) (ip_future : future)
    : traced future :=
  if py_neb (dict_get "gwId" payload) device_id then mret ip_future
  else
    let ip_address := dict_get "ip" payload in
    if truthy ip_address && negb (future_done ip_future) then
      emit (Logged INFO "Discovered %s at %s" [ArgVal device_id; ArgVal ip_address]);;
      future_set_result ip_address ip_future
    else mret ip_future.

(** The local network as the listener sees it: what [discovery.start()]
    does, and the broadcasts received afterwards, each with its arrival time
    in seconds counted from the beginning of the wait. *)
Record Lan : Type := {
  start_outcome : result unit;
  broadcasts : list (Q * dict)
}.

(** The listener delivers a payload to the callback; an exception of the
    callback stays in the listener and leaves the future as it was. *)
Definition deliver (device_id : pyval) (payload : dict) (ip_future : future)
    : future * list event :=
  let r := handle_discovery device_id payload ip_future in
  match r.1 with
  | Ok fut => (fut, r.2)
  | Raise _ => (ip_future, r.2)
  end.

(** [await asyncio.wait_for(ip_future, timeout)]: the broadcasts that arrive
    before the deadline are delivered one by one until the future is done. *)
Fixpoint wait_for (device_id : pyval) (timeout : Q) (incoming : list (Q * dict))
    (ip_future : future) : traced pyval :=
  match ip_future with
  | Done ip => mret ip
  | Cancelled => raise CancelledError
  | Pending =>
      match incoming with
      | [] => raise TimeoutError
      | (t, payload) :: rest =>
          if Qlt_le_dec t timeout then
            let d := deliver device_id payload ip_future in
            let r := wait_for device_id timeout rest d.1 in
            (r.1, d.2 ++ r.2)
          else raise TimeoutError
      end
  end.

(** The listener calls the callback on every payload it receives, in order:
    the state of the future afterwards and what happened on the way. *)
Fixpoint deliver_all (device_id : pyval) (payloads : list dict) (ip_future : future)
    : future * list event :=
  match payloads with
  | [] => (ip_future, [])
  | payload :: rest =>
      let d := deliver device_id payload ip_future in
      let r := deliver_all device_id rest d.1 in
      (r.1, d.2 ++ r.2)
  end.

(** A payload that announces the device [device_id] with a usable address. *)
Definition announces (device_id : pyval) (payload : dict) : bool :=
  py_eqb (dict_get "gwId" payload) device_id && truthy (dict_get "ip" payload).

(** No announcement of the device arrives before the deadline. *)
Definition silent (device_id : pyval) (timeout : Q) (incoming : list (Q * dict)) : Prop :=
  Forall (fun tp => (tp.1 < timeout)%Q -> announces device_id tp.2 = false) incoming.

(** The error of a discovery that timed out. *)
Definition timed_out : exn :=
  VacuumLoginError
    [Lit "Timed out waiting for the vacuum to announce itself on the local network."].

Definition is_TimeoutError (e : exn) : bool :=
  match e with TimeoutError => true | _ => false end.

Definition is_PortsNotAvailable (e : exn) : bool :=
  match e with DiscoveryPortsNotAvailableException _ => true | _ => false end.

(** The default of the [timeout] parameter, in seconds. *)
Definition default_timeout : Q := 60.

Definition discover_device_ip (lan : Lan) (device_id : pyval) (timeout : Q) : traced pyval :=
  let ip_future := Pending in
  try_except is_PortsNotAvailable
    (emit ListenerStart;; lift (start_outcome lan))
    (fun err =>
       emit ListenerClose;;
       raise (VacuumLoginError
                match err with
                | DiscoveryPortsNotAvailableException m => m
                | _ => []
                end));;
  try_finally
    (try_except is_TimeoutError
       (wait_for device_id timeout (broadcasts lan) ip_future)
       (fun _ =>
          raise (VacuumLoginError
            [Lit "Timed out waiting for the vacuum to announce itself on the local network."])))
    (emit ListenerClose).

End Discovery.

Import Account Discovery.

(** ** The Main Orchestrator ([main]) *)

Module Orchestrator.

Import Reporter.

(** One asynchronous operation of the device session: the states pushed by
    the device while it runs, each with the time stamp read by the callback,
    and how the operation ends. *)
Record step : Type := {
  pushes : list (string * option state);
  outcome : result unit
}.

(** The local-protocol client [RoboVac] of the vendored integration. *)
Record Session : Type := {
  (** the models recognised by the integration *)
  supported_models : list pyval;
  on_connect : step;
  on_get : step;
  (** [vacuum.state] and the clock at the explicit call of the callback *)
  state_at_report : string * option state;
  (** the idle loop only ends with an exception *)
  idle_pushes : list (string * option state);
  interruption : exn;
  disconnect_outcome : result unit
}.

(** Modelled from the spec: the constructor of the vendored class [RoboVac],
    which is not part of the sources at hand. "Construction fails [...] if the
    model code is not in the set of recognized/supported models"; the failure
    is the [ModelNotSupportedException] that [main] catches. *)
Definition RoboVac_init (s : Session) (model_code : pyval) : result unit :=
  if existsb (py_eqb model_code) (supported_models s) then Ok tt
  else Raise (ModelNotSupportedException [Interp model_code]).

(** The device pushes a state: the session stores it and awaits the callback. *)
Definition push (p : string * option state) (previous_state : state)
    : state * list event :=
  let r := log_state_update p.1 (Some {| rv_state := p.2 |}) previous_state in
  (r.1, map Printed r.2).

Fixpoint run_pushes (ps : list (string * option state)) (previous_state : state)
    : state * list event :=
  match ps with
  | [] => (previous_state, [])
  | p :: rest =>
      let a := push p previous_state in
      let b := run_pushes rest a.1 in
      (b.1, a.2 ++ b.2)
  end.

(** An awaited operation of the session, started with the event [e]. *)
Definition run_step (e : event) (st : step) (previous_state : state) : traced state :=
  let r := run_pushes (pushes st) previous_state in
  (match outcome st with Ok _ => Ok r.1 | Raise err => Raise err end, e :: r.2).

Definition is_ModelNotSupported (e : exn) : bool :=
  match e with ModelNotSupportedException _ => true | _ => false end.

Definition is_KeyboardInterrupt (e : exn) : bool :=
  match e with KeyboardInterrupt => true | _ => false end.

Definition is_VacuumLoginError (e : exn) : bool :=
  match e with VacuumLoginError _ => true | _ => false end.

(** [vacuum_details[key] = v] *)
Definition py_setitem (key : string) (v : pyval) (d : pyval) : result pyval :=
  match d with
  | VDict l => Ok (VDict (dict_set key v l))
  | _ => Raise TypeError
  end.

(** Line 207: [(vacuum_details.get("model") or "")[:5]] *)
Definition model_code_of (vacuum_details : pyval) : result pyval :=
  model ← py_get "model" vacuum_details;
  py_slice_to 5 (py_or model (VStr "")).

(** Lines 185-238 of [main]: from the resolved descriptor to the teardown. *)
Definition main_session (s : Session) (vacuum_details : pyval) : traced unit :=
  let previous_state : state := ∅ in
  model_code ← lift (model_code_of vacuum_details);
  if negb (truthy model_code)
  then raise (VacuumLoginError [Lit "The vacuum did not report a model code."])
  else
    try_except is_ModelNotSupported
      (device_id ← lift (py_index "id" vacuum_details);
       host ← lift (py_index "ip_address" vacuum_details);
       local_key ← lift (py_index "access_token" vacuum_details);
       emit (SessionInit model_code device_id host local_key);;
       lift (RoboVac_init s model_code))
      (fun err =>
         raise (VacuumLoginError
                  [Lit "Model "; Interp model_code;
                   Lit " is not supported by the RoboVac integration."]));;
    try_finally
      (try_except is_KeyboardInterrupt
         (previous_state1 ← run_step SessionConnect (on_connect s) previous_state;
          previous_state2 ← run_step SessionGet (on_get s) previous_state1;
          let r := push (state_at_report s) previous_state2 in
          (Ok tt, r.2);;
          emit (Printed (PrintLine
            "Listening for vacuum status changes... Go to your Eufy app and start a room clean to see the logs. Press Ctrl+C to exit."));;
          let idle := run_pushes (idle_pushes s) r.1 in
          (Raise (interruption s), idle.2))
         (fun _ =>
            emit (Printed (PrintLine (String.append newline "Disconnecting from the vacuum...")))))
      (emit SessionDisconnect;; lift (disconnect_outcome s)).

(** The terminal, the cloud, the local network and the device. *)
Record World : Type := {
  (** [input("Eufy email: ").strip()] *)
  typed_email : string;
  (** [getpass.getpass("Eufy password: ")] *)
  typed_password : string;
  cloud : Cloud;
  lan : Lan;
  session : Session
}.

Definition main (w : World) : traced unit :=
  let email := typed_email w in
  let password := typed_password w in
  if String.eqb email "" || String.eqb password ""
  then raise (SystemExit [Lit "Both email and password are required."])
  else
    emit (Logged INFO "Logging in to the Eufy and Tuya services..." []);;
    vacuum_details ← fetch_first_vacuum (cloud w) email password;
    name ← lift (py_index "name" vacuum_details);
    model ← lift (py_index "model" vacuum_details);
    emit (Logged INFO "Found RoboVac '%s' (model %s)" [ArgVal name; ArgVal model]);;
    emit (Logged INFO "Waiting for the vacuum to broadcast its IP address..." []);;
    device_id ← lift (py_index "id" vacuum_details);
    ip_address ← discover_device_ip (lan w) device_id default_timeout;
    vacuum_details' ← lift (py_setitem "ip_address" ip_address vacuum_details);
    main_session (session w) vacuum_details'.

(** [asyncio.run(coro)]: the outcome of the coroutine, but for the operator's
    interrupt.  On SIGINT the runner cancels the main task, which then sees
    [CancelledError] where it is suspended; once the task has ended with that
    [CancelledError] the runner raises [KeyboardInterrupt] in its place.
    [sigint] tells whether the runner has received the interrupt; a
    [CancelledError] of another origin is passed on as it is. *)
Definition asyncio_run {A} (sigint : bool) (coro : traced A) : traced A :=
  match coro.1 with
  | Raise CancelledError =>
      if sigint then (Raise KeyboardInterrupt, coro.2) else coro
  | _ => coro
  end.

(** The [__main__] block: a [VacuumLoginError] that comes out of
    [asyncio.run(main())] is logged and turned into the exit status 1. *)
Definition script (sigint : bool) (w : World) : traced unit :=
  try_except is_VacuumLoginError (asyncio_run sigint (main w))
    (fun err =>
       emit (Logged ERROR "%s" [ArgExn err]);;
       raise (SystemExit [Interp (VInt 1)])).

End Orchestrator.

(** ** Example worlds *)

Module Examples.

Import Reporter Orchestrator.

(** A cloud for the examples: the clients and the tables of [countries.py]
    are not part of the sources, these stand for them. *)
Definition example_cloud : Cloud := {|
  get_user_info := fun _ _ => Ok None;
  get_device_info := fun _ _ _ _ _ => Ok None;
  get_user_settings := fun _ _ _ _ _ => Ok None;
  get_phone_code_by_country_code := fun _ => Ok (VStr "49");
  get_phone_code_by_region := fun _ => Ok (VStr "1");
  get_region_by_country_code := fun _ => Ok (VStr "EU");
  get_region_by_phone_code := fun _ => Ok (VStr "EU");
  TuyaAPISession := fun _ _ _ _ => Ok tt;
  get_device := fun _ _ _ _ id =>
    if py_eqb id (VStr "dev2") then Ok (VDict [("localKey", VStr "k2")])
    else if py_eqb id (VStr "dev3") then Ok (VDict [("localKey", VStr "")])
    else Raise (OtherException [Lit "device lookup failed"])
|}.

(** [{"setting": {"home_setting": {"tuya_home": home}}}] *)
Definition settings_with (home : dict) : pyval :=
  VDict [("setting", VDict [("home_setting", VDict [("tuya_home", VDict home)])])].

(** Four devices of an account: a camera, a vacuum whose lookup fails, a
    vacuum without local key and a vacuum with the key ["k2"]. *)
Definition camera : pyval :=
  VDict [("id", VStr "dev0"); ("product", VDict [("appliance", VStr "Camera")])].

Definition vacuum (id : string) : pyval :=
  VDict [("id", VStr id); ("name", VStr "Robo");
         ("product", VDict [("appliance", VStr "Cleaning"); ("product_code", VStr "T2118123")])].

Definition example_client : pyval -> result pyval :=
  get_device example_cloud VNone VNone VNone VNone.

Definition example_descriptor : pyval :=
  VDict [ ("id", VStr "dev2"); ("name", VStr "Robo"); ("model", VStr "T2118123");
          ("description", VStr "Robo"); ("mac", VNone); ("access_token", VStr "k2") ].

(** A broadcast payload. *)
Definition announcement (gw ip : string) : dict := [("gwId", VStr gw); ("ip", VStr ip)].

(** The vacuum announces itself after 61 seconds. *)
Definition late_lan : Lan := {|
  start_outcome := Ok tt;
  broadcasts := [ (5%Q, announcement "dev9" "10.0.0.9");
                  (61%Q, announcement "dev2" "192.168.1.42") ]
|}.

(** The vacuum announces itself twice, after another device. *)
Definition busy_lan : Lan := {|
  start_outcome := Ok tt;
  broadcasts := [ (1%Q, announcement "dev9" "10.0.0.9");
                  (2%Q, announcement "dev2" "192.168.1.42");
                  (3%Q, announcement "dev2" "192.168.1.42") ]
|}.

(** The broadcast ports are taken. *)
Definition blocked_lan : Lan := {|
  start_outcome :=
    Raise (DiscoveryPortsNotAvailableException [Lit "Ports 6666 and 6667 are not available."]);
  broadcasts := []
|}.

(** A session that recognises two models; the device reports its state at
    the first query and pushes one update before the operator interrupts. *)
Definition example_session : Session := {|
  supported_models := [VStr "T2118"; VStr "T2250"];
  on_connect := {| pushes := []; outcome := Ok tt |};
  on_get := {| pushes := []; outcome := Ok tt |};
  state_at_report := ("2024-01-01T10:00:00", Some {[ "battery" := VInt 80 ]});
  idle_pushes :=
    [ ("2024-01-01T10:00:05",
       Some ({[ "battery" := VInt 79 ]} ∪ {[ "state" := VStr "cleaning" ]})) ];
  interruption := KeyboardInterrupt;
  disconnect_outcome := Ok tt
|}.

(** A descriptor after discovery, for the product code [model]. *)
Definition resolved (model : string) : dict :=
  [ ("id", VStr "dev2"); ("name", VStr "Robo"); ("model", VStr model);
    ("description", VStr "Robo"); ("mac", VNone); ("access_token", VStr "k2");
    ("ip_address", VStr "192.168.1.42") ].

(** The scenario of the specification: valid credentials, two vacuums of
    which the first one fails at the secondary lookup, an announcement of the
    second one on the local network, a first state and one update. *)
Definition scenario_cloud : Cloud := {|
  get_user_info := fun _ _ =>
    Ok (Some {| status_code := 200;
                json := Ok (VDict [ ("res_code", VInt 1);
                                    ("user_info",
                                     VDict [ ("id", VStr "u1");
                                             ("request_host", VStr "https://home-api");
                                             ("phone_code", VStr "49") ]);
                                    ("access_token", VStr "token") ]) |});
  get_device_info := fun _ _ _ _ _ =>
    Ok (Some {| status_code := 200;
                json := Ok (VDict [("devices", VList [camera; vacuum "dev1"; vacuum "dev2"])]) |});
  get_user_settings := fun _ _ _ _ _ =>
    Ok (Some {| status_code := 200;
                json := Ok (settings_with [("tuya_region_code", VStr "EU")]) |});
  get_phone_code_by_country_code := get_phone_code_by_country_code example_cloud;
  get_phone_code_by_region := get_phone_code_by_region example_cloud;
  get_region_by_country_code := get_region_by_country_code example_cloud;
  get_region_by_phone_code := get_region_by_phone_code example_cloud;
  TuyaAPISession := TuyaAPISession example_cloud;
  get_device := get_device example_cloud
|}.

Definition scenario : World := {|
  typed_email := "me@example.org";
  typed_password := "secret";
  cloud := scenario_cloud;
  lan := busy_lan;
  session := example_session
|}.

End Examples.

(** ** Observations on values, traces and runs *)

Module Observations.

Import Reporter Orchestrator.

(** A value as Python builds it from JSON: no object has two entries for one
    key, at any depth. *)
Fixpoint wf_json (v : pyval) : bool :=
  match v with
  | VList l =>
      (fix go (l : list pyval) : bool :=
         match l with
         | [] => true
         | x :: l' => wf_json x && go l'
         end) l
  | VDict d =>
      (fix go (d : dict) : bool :=
         match d with
         | [] => true
         | (k, x) :: d' => negb (dict_has k d') && wf_json x && go d'
         end) d
  | _ => true
  end.

Definition is_debug_log (e : event) : bool :=
  match e with Logged DEBUG _ _ => true | _ => false end.

Definition is_start (e : event) : bool :=
  match e with ListenerStart => true | _ => false end.

Definition is_get (e : event) : bool :=
  match e with SessionGet => true | _ => false end.

(** The events of the discovery: the listener, the future and the INFO
    record of the callback. *)
Definition is_discovery_event (e : event) : bool :=
  match e with
  | ListenerStart | ListenerClose | SetResult _ | Logged INFO _ _ => true
  | _ => false
  end.

(** The events of a connected session: the state query and what the callback
    prints. *)
Definition is_session_event (e : event) : bool :=
  match e with
  | SessionGet | Printed _ => true
  | _ => false
  end.

(** [not vacuum.state] for a pushed state. *)
Definition reports_nothing (st : option state) : bool :=
  match st with
  | None => true
  | Some s => state_is_empty s
  end.

(** The last non-empty state among the pushes [ps], or [previous_state] when
    there is none. *)
Fixpoint last_reported (ps : list (string * option state)) (previous_state : state)
    : state :=
  match ps with
  | [] => previous_state
  | (_, st) :: rest =>
      last_reported rest
        (match st with
         | Some s => if state_is_empty s then previous_state else s
         | None => previous_state
         end)
  end.

Section Login.

Variable cloud : Cloud.
Variables email password : string.

(** The login succeeded: HTTP 200, result code 1, and a body that carries the
    profile [user_info] with its host and id, and the token. *)
Definition logged_in (user_info token host uid : pyval) : Prop :=
  exists resp body,
    get_user_info cloud email password = Ok (Some resp) /\
    status_code resp = 200 /\
    json resp = Ok (VDict body) /\
    py_eqb (dict_get "res_code" body) (VInt 1) = true /\
    dict_lookup "user_info" body = Some user_info /\
    dict_lookup "access_token" body = Some token /\
    py_index "request_host" user_info = Ok host /\
    py_index "id" user_info = Ok uid.

End Login.

End Observations.

(** ** More example worlds *)

Module Variants.

Import Reporter Orchestrator Examples.

(** The cloud [c] with another answer to the login, to the device list or to
    the settings request. *)
Definition with_login (c : Cloud) (r : result (option response)) : Cloud := {|
  get_user_info := fun _ _ => r;
  get_device_info := get_device_info c;
  get_user_settings := get_user_settings c;
  get_phone_code_by_country_code := get_phone_code_by_country_code c;
  get_phone_code_by_region := get_phone_code_by_region c;
  get_region_by_country_code := get_region_by_country_code c;
  get_region_by_phone_code := get_region_by_phone_code c;
  TuyaAPISession := TuyaAPISession c;
  get_device := get_device c
|}.

Definition with_device_list (c : Cloud) (r : result (option response)) : Cloud := {|
  get_user_info := get_user_info c;
  get_device_info := fun _ _ _ _ _ => r;
  get_user_settings := get_user_settings c;
  get_phone_code_by_country_code := get_phone_code_by_country_code c;
  get_phone_code_by_region := get_phone_code_by_region c;
  get_region_by_country_code := get_region_by_country_code c;
  get_region_by_phone_code := get_region_by_phone_code c;
  TuyaAPISession := TuyaAPISession c;
  get_device := get_device c
|}.

Definition with_settings (c : Cloud) (r : result (option response)) : Cloud := {|
  get_user_info := get_user_info c;
  get_device_info := get_device_info c;
  get_user_settings := fun _ _ _ _ _ => r;
  get_phone_code_by_country_code := get_phone_code_by_country_code c;
  get_phone_code_by_region := get_phone_code_by_region c;
  get_region_by_country_code := get_region_by_country_code c;
  get_region_by_phone_code := get_region_by_phone_code c;
  TuyaAPISession := TuyaAPISession c;
  get_device := get_device c
|}.

(** The response with status [code] and body [body]. *)
Definition answer (code : Z) (body : pyval) : result (option response) :=
  Ok (Some {| status_code := code; json := Ok body |}).

(** The profile of the scenario. *)
Definition scenario_profile : dict :=
  [ ("id", VStr "u1"); ("request_host", VStr "https://home-api");
    ("phone_code", VStr "49") ].

(** The scenario with another cloud, another network or another session. *)
Definition with_cloud (w : World) (c : Cloud) : World := {|
  typed_email := typed_email w;
  typed_password := typed_password w;
  cloud := c;
  lan := lan w;
  session := session w
|}.

Definition with_lan (w : World) (l : Lan) : World := {|
  typed_email := typed_email w;
  typed_password := typed_password w;
  cloud := cloud w;
  lan := l;
  session := session w
|}.

Definition with_session (w : World) (s : Session) : World := {|
  typed_email := typed_email w;
  typed_password := typed_password w;
  cloud := cloud w;
  lan := lan w;
  session := s
|}.

Definition with_credentials (w : World) (email password : string) : World := {|
  typed_email := email;
  typed_password := password;
  cloud := cloud w;
  lan := lan w;
  session := session w
|}.

(** The listener fails to start for another reason than the ports. *)
Definition broken_lan : Lan := {|
  start_outcome := Raise (OtherException [Lit "no network interface"]);
  broadcasts := []
|}.

(** The session of the examples with another end of [async_connect], or with
    another exception ending the idle loop. *)
Definition failing_connect (s : Session) (e : exn) : Session := {|
  supported_models := supported_models s;
  on_connect := {| pushes := pushes (on_connect s); outcome := Raise e |};
  on_get := on_get s;
  state_at_report := state_at_report s;
  idle_pushes := idle_pushes s;
  interruption := interruption s;
  disconnect_outcome := disconnect_outcome s
|}.

Definition interrupted_by (s : Session) (e : exn) : Session := {|
  supported_models := supported_models s;
  on_connect := on_connect s;
  on_get := on_get s;
  state_at_report := state_at_report s;
  idle_pushes := idle_pushes s;
  interruption := e;
  disconnect_outcome := disconnect_outcome s
|}.

Definition failing_disconnect (s : Session) (e : exn) : Session := {|
  supported_models := supported_models s;
  on_connect := on_connect s;
  on_get := on_get s;
  state_at_report := state_at_report s;
  idle_pushes := idle_pushes s;
  interruption := interruption s;
  disconnect_outcome := Raise e
|}.

End Variants.

(** ** The feature flags of the vacuum stubs
    ([homeassistant/components/vacuum/__init__.py]) *)

Module Features.

(** The members of the [IntFlag] [VacuumEntityFeature]; [STATUS] is declared
    with the value of [STATE], which makes it an alias of that member. *)
Inductive VacuumEntityFeature : Type :=
  | NONE | TURN_ON | TURN_OFF | START | STOP | RETURN_HOME | FAN_SPEED | BATTERY
  | STATE | LOCATE | CLEAN_SPOT | PAUSE | SEND_COMMAND | MAP.

Definition STATUS : VacuumEntityFeature := STATE.

(** The declaration of a member: [0] for [NONE], [1 << n] for the others;
    [shift] is the [n] of the declaration. *)
Definition shift (f : VacuumEntityFeature) : option Z :=
  match f with
  | NONE => None
  | TURN_ON => Some 0
  | TURN_OFF => Some 1
  | START => Some 2
  | STOP => Some 3
  | RETURN_HOME => Some 4
  | FAN_SPEED => Some 5
  | BATTERY => Some 6
  | STATE => Some 7
  | LOCATE => Some 8
  | CLEAN_SPOT => Some 9
  | PAUSE => Some 10
  | SEND_COMMAND => Some 11
  | MAP => Some 12
  end.

(** [member.value] *)
Definition value (f : VacuumEntityFeature) : Z :=
  match shift f with
  | None => 0
  | Some n => Z.shiftl 1 n
  end.

(** [a | b | ...] for a list of members. *)
Definition union (fs : list VacuumEntityFeature) : Z :=
  fold_right (fun f acc => Z.lor (value f) acc) 0 fs.

(** [f in flags], that is [flags & f == f]. *)
Definition contains (flags : Z) (f : VacuumEntityFeature) : bool :=
  (Z.land flags (value f) =? value f)%Z.

End Features.

(** * Properties *)

(** ** The Change Reporter *)

Module ReporterProofs.

Import Reporter.

Lemma state_is_empty_true (d : state) : state_is_empty d = true <-> d = ∅.
Proof. unfold state_is_empty. apply bool_decide_eq_true. Qed.

Lemma state_is_empty_false (d : state) : state_is_empty d = false <-> d ≠ ∅.
Proof. unfold state_is_empty. apply bool_decide_eq_false. Qed.

(** The comprehension, key by key. *)
Lemma changes_of_lookup (previous current : state) (k : string) :
  changes_of previous current !! k =
  match current !! k with
  | Some v => if py_neb (snapshot_get previous k) v then Some v else None
  | None => None
  end.
Proof.
  unfold changes_of.
  apply (map_fold_weak_ind (fun (acc cur : state) =>
    acc !! k = match cur !! k with
               | Some v => if py_neb (snapshot_get previous k) v then Some v else None
               | None => None
               end)).
  - by rewrite !lookup_empty.
  - intros i x m r Hfresh IH.
    destruct (decide (i = k)) as [->|Hne].
    + rewrite lookup_insert_eq.
      destruct (py_neb (snapshot_get previous k) x).
      * by rewrite lookup_insert_eq.
      * rewrite IH, Hfresh. done.
    + rewrite (lookup_insert_ne m) by done.
      destruct (py_neb (snapshot_get previous i) x); [|done].
      by rewrite lookup_insert_ne.
Qed.

Lemma spec_ChangeSet_lookup (previous current : state) (k : string) :
  spec_ChangeSet previous current !! k =
  match current !! k with
  | Some v => if py_neb (snapshot_get previous k) v then Some v else None
  | None => None
  end.
Proof.
  unfold spec_ChangeSet. rewrite map_lookup_filter.
  destruct (current !! k) as [v|]; simpl; [|done].
  case_guard as Hg; simpl in Hg; simpl.
  - by rewrite Hg.
  - by destruct (py_neb (snapshot_get previous k) v).
Qed.

Lemma changes_of_spec (previous current : state) :
  changes_of previous current = spec_ChangeSet previous current.
Proof.
  apply map_eq. intros k.
  by rewrite changes_of_lookup, spec_ChangeSet_lookup.
Qed.

(** The callback on a session whose state is the non-empty mapping
    [current]. *)
Lemma log_state_update_nonempty (ts : string) (previous current : state) :
  current ≠ ∅ ->
  log_state_update ts (session_with current) previous =
  ( current,
    if state_is_empty (changes_of previous current) then []
    else [ PrintLine (String.concat "" [newline; "["; ts; "] Received vacuum update:"]);
           PrintJson 2 true (changes_of previous current);
           PrintLine "" ] ).
Proof.
  intros Hne. unfold log_state_update, session_with. simpl.
  apply state_is_empty_false in Hne. rewrite Hne.
  by destruct (state_is_empty (changes_of previous current)).
Qed.

(** C1: for every previous snapshot and every non-empty current state, the
    ChangeSet computed by the callback is
    [{k: current[k] for k in current if previous.get(k) != current[k]}];
    when it is empty the callback prints nothing, and otherwise the object
    it prints is that ChangeSet. *)
Theorem changeset_is_comprehension (ts : string) (previous current : state) :
  current ≠ ∅ ->
  changes_of previous current = spec_ChangeSet previous current /\
  (spec_ChangeSet previous current = ∅ ->
     (log_state_update ts (session_with current) previous).2 = []) /\
  (spec_ChangeSet previous current ≠ ∅ ->
     (log_state_update ts (session_with current) previous).2 =
     [ PrintLine (String.concat "" [newline; "["; ts; "] Received vacuum update:"]);
       PrintJson 2 true (spec_ChangeSet previous current);
       PrintLine "" ]).
Proof.
  intros Hne. rewrite (log_state_update_nonempty ts previous current Hne).
  rewrite changes_of_spec. simpl. split; [done|]. split; intros H.
  - apply state_is_empty_true in H. by rewrite H.
  - apply state_is_empty_false in H. by rewrite H.
Qed.

Lemma changeset_is_comprehension_witness :
  let previous : state := {[ "battery" := VInt 80 ]} in
  let current : state := {[ "battery" := VInt 79 ]} ∪ {[ "state" := VStr "cleaning" ]} in
  changes_of previous current = spec_ChangeSet previous current /\
  (spec_ChangeSet previous current = ∅ ->
     (log_state_update "t" (session_with current) previous).2 = []) /\
  (spec_ChangeSet previous current ≠ ∅ ->
     (log_state_update "t" (session_with current) previous).2 =
     [ PrintLine (String.concat "" [newline; "["; "t"; "] Received vacuum update:"]);
       PrintJson 2 true (spec_ChangeSet previous current);
       PrintLine "" ]).
Proof.
  intros previous current.
  apply (changeset_is_comprehension "t" previous current).
  intros H. apply (f_equal (fun m : state => m !! "state")) in H.
  vm_compute in H. discriminate H.
Defined.

(** When the ChangeSet is empty, every field of the current state is equal,
    in Python's sense, to what the snapshot returns for it. *)
Lemma changes_of_empty (previous current : state) :
  changes_of previous current = ∅ <->
  forall k v, current !! k = Some v -> py_eqb (snapshot_get previous k) v = true.
Proof.
  split.
  - intros He k v Hk.
    pose proof (changes_of_lookup previous current k) as Hl.
    rewrite He, lookup_empty, Hk in Hl. unfold py_neb in Hl.
    by destruct (py_eqb (snapshot_get previous k) v).
  - intros H. apply map_empty. intros k. rewrite changes_of_lookup.
    destruct (current !! k) as [v|] eqn:Hk; [|done].
    unfold py_neb. by rewrite (H k v Hk).
Qed.

(** C3, as stated, fails: with the snapshot [{"a": 1, "b": 2}] and the
    current state [{"a": 1}] the ChangeSet is empty and nothing is printed,
    yet the stored snapshot becomes [{"a": 1}]. *)
Lemma empty_changeset_not_a_noop :
  let previous : state := {[ "a" := VInt 1 ]} ∪ {[ "b" := VInt 2 ]} in
  let current : state := {[ "a" := VInt 1 ]} in
  current ≠ ∅ /\
  changes_of previous current = ∅ /\
  (log_state_update "t" (session_with current) previous).2 = [] /\
  (log_state_update "t" (session_with current) previous).1 ≠ previous.
Proof.
  intros previous current.
  assert (Hne : current ≠ ∅).
  { intros H. apply (f_equal (fun m : state => m !! "a")) in H.
    vm_compute in H. discriminate H. }
  assert (He : changes_of previous current = ∅).
  { apply changes_of_empty. intros k v Hk.
    subst current. apply lookup_singleton_Some in Hk as [<- <-].
    vm_compute. reflexivity. }
  split; [exact Hne|]. split; [exact He|].
  rewrite (log_state_update_nonempty "t" previous current Hne), He. simpl.
  split; [reflexivity|].
  intros H. apply (f_equal (fun m : state => m !! "b")) in H.
  vm_compute in H. discriminate H.
Qed.

(** C3, amended: for every previous snapshot and every non-empty current
    state whose ChangeSet is empty, the callback prints nothing and replaces
    the stored snapshot with the current state; the two agree, up to Python's
    equality, on every field of the current state. *)
Theorem empty_changeset_silent_replace (ts : string) (previous current : state) :
  current ≠ ∅ ->
  changes_of previous current = ∅ ->
  log_state_update ts (session_with current) previous = (current, []) /\
  (forall k v, current !! k = Some v -> py_eqb (snapshot_get previous k) v = true).
Proof.
  intros Hne He. rewrite (log_state_update_nonempty ts previous current Hne), He.
  split; [reflexivity|]. by apply changes_of_empty.
Qed.

Lemma empty_changeset_silent_replace_witness :
  let previous : state := {[ "a" := VInt 1 ]} ∪ {[ "b" := VInt 2 ]} in
  let current : state := {[ "a" := VInt 1 ]} in
  log_state_update "t" (session_with current) previous = (current, []) /\
  (forall k v, current !! k = Some v -> py_eqb (snapshot_get previous k) v = true).
Proof.
  intros previous current.
  apply (empty_changeset_silent_replace "t" previous current).
  - intros H. apply (f_equal (fun m : state => m !! "a")) in H.
    vm_compute in H. discriminate H.
  - apply changes_of_empty. intros k v Hk.
    subst current. apply lookup_singleton_Some in Hk as [<- <-].
    vm_compute. reflexivity.
Defined.

(** On the first update every field whose value is not equal to [None] is
    reported. *)
Lemma first_update_reports_non_none (current : state) :
  (forall k v, current !! k = Some v -> py_eqb VNone v = false) ->
  changes_of ∅ current = current.
Proof.
  intros H. apply map_eq. intros k. rewrite changes_of_lookup.
  destruct (current !! k) as [v|] eqn:Hk; [|done].
  assert (snapshot_get ∅ k = VNone) as ->
    by (unfold snapshot_get; by rewrite lookup_empty).
  unfold py_neb. by rewrite (H k v Hk).
Qed.

Lemma py_eqb_none (v : pyval) : py_eqb VNone v = true <-> v = VNone.
Proof. destruct v; simpl; split; intros H; try reflexivity; discriminate H. Qed.

(** C4, amended: on the first update, against the empty snapshot, the fields
    reported are exactly the fields of the current state whose value is not
    [None], each with its current value; the ChangeSet is the whole current
    state whenever no field is [None]. *)
Theorem first_update_reports_non_none_fields (current : state) :
  current ≠ ∅ ->
  (forall k v,
     changes_of ∅ current !! k = Some v <-> current !! k = Some v /\ v ≠ VNone) /\
  ((forall k, current !! k ≠ Some VNone) -> changes_of ∅ current = current).
Proof.
  intros _. split.
  - intros k v. rewrite changes_of_lookup.
    assert (snapshot_get ∅ k = VNone) as ->
      by (unfold snapshot_get; by rewrite lookup_empty).
    destruct (current !! k) as [w|]; [|split; [discriminate|by intros [? _]]].
    unfold py_neb. destruct (py_eqb VNone w) eqn:E; simpl.
    + apply py_eqb_none in E. subst w. split; [discriminate|].
      by intros [[= <-] Hne].
    + split.
      * intros [= ->]. split; [reflexivity|]. intros ->. discriminate E.
      * by intros [[= ->] _].
  - intros H. apply first_update_reports_non_none. intros k v Hk.
    destruct (py_eqb VNone v) eqn:E; [|reflexivity].
    apply py_eqb_none in E. subst v. by destruct (H k).
Qed.

Lemma first_update_reports_non_none_fields_witness :
  let current : state := {[ "battery" := VInt 80 ]} in
  (forall k v,
     changes_of ∅ current !! k = Some v <-> current !! k = Some v /\ v ≠ VNone) /\
  ((forall k, current !! k ≠ Some VNone) -> changes_of ∅ current = current).
Proof.
  intros current. apply (first_update_reports_non_none_fields current).
  intros H. apply (f_equal (fun m : state => m !! "battery")) in H.
  vm_compute in H. discriminate H.
Defined.

(** C4, as stated, fails: on the first update with the state [{"a": None}]
    the comparison [previous_state.get("a") != None] is false, the ChangeSet
    is empty instead of being the whole state, and nothing is printed. *)
Theorem first_update_drops_none_field :
  let current : state := {[ "a" := VNone ]} in
  current ≠ ∅ /\
  changes_of ∅ current = ∅ /\
  changes_of ∅ current ≠ current /\
  log_state_update "t" (session_with current) ∅ = (current, []).
Proof.
  intros current.
  assert (Hne : current ≠ ∅).
  { intros H. apply (f_equal (fun m : state => m !! "a")) in H.
    vm_compute in H. discriminate H. }
  assert (He : changes_of ∅ current = ∅).
  { apply changes_of_empty. intros k v Hk.
    subst current. apply lookup_singleton_Some in Hk as [<- <-].
    reflexivity. }
  split; [exact Hne|]. split; [exact He|]. split.
  - rewrite He. congruence.
  - by rewrite (log_state_update_nonempty "t" ∅ current Hne), He.
Qed.

(** C5: after an update with a non-empty ChangeSet the stored snapshot is the
    current state itself, not a merge: a field of the older snapshot that the
    newer state lacks is gone from the snapshot, the next ChangeSet depends on
    the newer state only, and the field is reported again as soon as it comes
    back with a value other than [None]. *)
Theorem snapshot_is_replaced (ts : string) (previous current : state) :
  current ≠ ∅ ->
  changes_of previous current ≠ ∅ ->
  let snapshot := (log_state_update ts (session_with current) previous).1 in
  snapshot = current /\
  (forall k, is_Some (previous !! k) -> current !! k = None ->
     snapshot !! k = None /\
     (forall next, next !! k = None -> changes_of snapshot next !! k = None) /\
     (forall next v, next !! k = Some v -> py_eqb VNone v = false ->
        changes_of snapshot next !! k = Some v)) /\
  (forall next, changes_of snapshot next = changes_of current next).
Proof.
  intros Hne _ snapshot.
  assert (Hs : snapshot = current).
  { subst snapshot. by rewrite (log_state_update_nonempty ts previous current Hne). }
  rewrite Hs. split; [reflexivity|]. split; [|done].
  intros k _ Hk. split; [exact Hk|]. split.
  - intros next Hn. by rewrite changes_of_lookup, Hn.
  - intros next v Hn Hv. rewrite changes_of_lookup, Hn.
    assert (snapshot_get current k = VNone) as ->
      by (unfold snapshot_get; by rewrite Hk).
    unfold py_neb. by rewrite Hv.
Qed.

Lemma snapshot_is_replaced_witness :
  let previous : state := {[ "a" := VInt 1 ]} ∪ {[ "b" := VInt 2 ]} in
  let current : state := {[ "a" := VInt 3 ]} in
  let snapshot := (log_state_update "t" (session_with current) previous).1 in
  snapshot = current /\
  (forall k, is_Some (previous !! k) -> current !! k = None ->
     snapshot !! k = None /\
     (forall next, next !! k = None -> changes_of snapshot next !! k = None) /\
     (forall next v, next !! k = Some v -> py_eqb VNone v = false ->
        changes_of snapshot next !! k = Some v)) /\
  (forall next, changes_of snapshot next = changes_of current next).
Proof.
  intros previous current.
  apply (snapshot_is_replaced "t" previous current).
  - intros H. apply (f_equal (fun m : state => m !! "a")) in H.
    vm_compute in H. discriminate H.
  - intros H. apply (f_equal (fun m : state => m !! "a")) in H.
    rewrite changes_of_lookup in H. vm_compute in H. discriminate H.
Defined.

End ReporterProofs.

(** ** Equations of the trace monad *)

Module TraceProofs.

Lemma bind_pair {A B} (r : result A) (tr : list event) (k : A -> traced B) :
  ((r, tr) : traced A) ≫= k =
  match r with
  | Ok a => ((k a).1, tr ++ (k a).2)
  | Raise e => (Raise e, tr)
  end.
Proof. by destruct r. Qed.

Lemma lift_Ok_bind {A B} (a : A) (k : A -> traced B) : lift (Ok a) ≫= k = k a.
Proof. unfold lift. rewrite bind_pair. simpl. by destruct (k a). Qed.

Lemma lift_Raise_bind {A B} (e : exn) (k : A -> traced B) :
  lift (Raise e) ≫= k = (Raise e, []).
Proof. reflexivity. Qed.

Lemma mret_bind {A B} (a : A) (k : A -> traced B) : mret a ≫= k = k a.
Proof. apply lift_Ok_bind. Qed.

Lemma emit_bind {B} (e : event) (k : unit -> traced B) :
  emit e ≫= k = ((k tt).1, e :: (k tt).2).
Proof. reflexivity. Qed.

Lemma raise_bind {A B} (e : exn) (k : A -> traced B) :
  @raise A e ≫= k = (Raise e, []).
Proof. reflexivity. Qed.

Lemma result_Ok_bind {A B} (a : A) (k : A -> result B) : Ok a ≫= k = k a.
Proof. reflexivity. Qed.

Lemma result_Raise_bind {A B} (e : exn) (k : A -> result B) : Raise e ≫= k = Raise e.
Proof. reflexivity. Qed.

Lemma try_except_ok {A} (c : exn -> bool) (body : traced A) (h : exn -> traced A) (a : A) :
  body.1 = Ok a -> try_except c body h = body.
Proof. intros H. unfold try_except. by rewrite H. Qed.

Lemma try_except_caught {A} (c : exn -> bool) (body : traced A) (h : exn -> traced A)
    (e : exn) :
  body.1 = Raise e -> c e = true ->
  try_except c body h = ((h e).1, body.2 ++ (h e).2).
Proof. intros H Hc. unfold try_except. by rewrite H, Hc. Qed.

Lemma try_except_passed {A} (c : exn -> bool) (body : traced A) (h : exn -> traced A)
    (e : exn) :
  body.1 = Raise e -> c e = false -> try_except c body h = body.
Proof. intros H Hc. unfold try_except. by rewrite H, Hc. Qed.

Create Rewrite HintDb traced.

#[export] Hint Rewrite @lift_Ok_bind @lift_Raise_bind @mret_bind @emit_bind
  @raise_bind @result_Ok_bind @result_Raise_bind : traced.

End TraceProofs.

Import TraceProofs.

(** ** The Account Resolver *)

Module AccountProofs.

Lemma truthy_dict_get_index (key : string) (d : dict) :
  truthy (dict_get key d) = true ->
  py_index key (VDict d) = Ok (dict_get key d).
Proof.
  unfold dict_get, dict_get_default, py_index.
  destruct (dict_lookup key d); [done|]. simpl. discriminate.
Qed.

Lemma py_index_lookup (key : string) (d : dict) (v : pyval) :
  dict_lookup key d = Some v -> py_index key (VDict d) = Ok v.
Proof. intros H. unfold py_index. by rewrite H. Qed.

Section Region.

Variable cloud : Cloud.

Lemma derive_region_with_code (th ui : dict) (code : pyval) :
  dict_lookup "tuya_region_code" th = Some code ->
  derive_region cloud (VDict th) (VDict ui) =
  (let region := if truthy code then code else VStr "EU" in
   if truthy (dict_get "phone_code" ui)
   then Ok (region, dict_get "phone_code" ui)
   else country_code ← get_phone_code_by_region cloud region; Ok (region, country_code)).
Proof.
  intros Hcode. unfold derive_region.
  assert (py_in "tuya_region_code" (VDict th) = Ok true) as ->
    by (unfold py_in, dict_has; by rewrite Hcode).
  rewrite (py_index_lookup _ _ _ Hcode).
  change (py_get "phone_code" (VDict ui)) with (Ok (dict_get "phone_code" ui)).
  cbn [mbind result_bind]. unfold py_or.
  destruct (truthy (dict_get "phone_code" ui)) eqn:Hp; [|reflexivity].
  by rewrite (truthy_dict_get_index _ _ Hp).
Qed.

Lemma derive_region_without_code (th ui : dict) :
  dict_lookup "tuya_region_code" th = None ->
  derive_region cloud (VDict th) (VDict ui) =
  (let phone := dict_get "phone_code" ui in
   let country := dict_get "country" ui in
   if truthy phone
   then region ← get_region_by_phone_code cloud phone; Ok (region, phone)
   else if truthy country
   then region ← get_region_by_country_code cloud country;
        country_code ← get_phone_code_by_country_code cloud country;
        Ok (region, country_code)
   else Ok (VStr "EU", VStr "44")).
Proof.
  intros Hcode. unfold derive_region.
  assert (py_in "tuya_region_code" (VDict th) = Ok false) as ->
    by (unfold py_in, dict_has; by rewrite Hcode).
  change (py_get "phone_code" (VDict ui)) with (Ok (dict_get "phone_code" ui)).
  change (py_get "country" (VDict ui)) with (Ok (dict_get "country" ui)).
  cbn [mbind result_bind]. cbv zeta.
  destruct (truthy (dict_get "phone_code" ui)) eqn:Hp.
  - rewrite (truthy_dict_get_index _ _ Hp). cbn [mbind result_bind].
    by destruct (get_region_by_phone_code cloud (dict_get "phone_code" ui)).
  - destruct (truthy (dict_get "country" ui)) eqn:Hc; [|reflexivity].
    rewrite (truthy_dict_get_index _ _ Hc). cbn [mbind result_bind].
    destruct (get_region_by_country_code cloud (dict_get "country" ui)); reflexivity.
Qed.

(** C2: the four rules of the region and country derivation, in order.  The
    profile "has" a phone code or a country when [user_info.get(...)] is
    truthy, as the script tests it. *)
Theorem region_precedence (settings_data : pyval) (th ui : dict) :
  tuya_home_of settings_data = Ok (VDict th) ->
  let phone := dict_get "phone_code" ui in
  let country := dict_get "country" ui in
  let derived := region_and_country cloud settings_data (VDict ui) in
  (forall code, dict_lookup "tuya_region_code" th = Some code ->
     let region := if truthy code then code else VStr "EU" in
     (truthy phone = true -> derived = Ok (region, phone)) /\
     (truthy phone = false ->
        derived = (country_code ← get_phone_code_by_region cloud region;
                   Ok (region, country_code)))) /\
  (dict_lookup "tuya_region_code" th = None ->
     (truthy phone = true ->
        derived = (region ← get_region_by_phone_code cloud phone; Ok (region, phone))) /\
     (truthy phone = false -> truthy country = true ->
        derived = (region ← get_region_by_country_code cloud country;
                   country_code ← get_phone_code_by_country_code cloud country;
                   Ok (region, country_code))) /\
     (truthy phone = false -> truthy country = false ->
        derived = Ok (VStr "EU", VStr "44"))).
Proof.
  intros Hhome phone country derived.
  assert (Hd : derived = derive_region cloud (VDict th) (VDict ui)).
  { subst derived. unfold region_and_country. by rewrite Hhome. }
  rewrite Hd. split.
  - intros code Hcode region.
    rewrite (derive_region_with_code th ui code Hcode). fold phone. cbv zeta. fold region.
    split; intros ->; reflexivity.
  - intros Hcode. rewrite (derive_region_without_code th ui Hcode).
    cbv zeta. fold phone. fold country.
    split; [|split].
    + by intros ->.
    + by intros -> ->.
    + by intros -> ->.
Qed.

End Region.

Lemma py_index_get (key : string) (item v : pyval) :
  py_index key item = Ok v -> py_get key item = Ok v.
Proof.
  destruct item; try discriminate. simpl. unfold dict_get_default.
  destruct (dict_lookup key l); [done | discriminate].
Qed.

Section Devices.

Variable client_get_device : pyval -> result pyval.

Local Abbreviation try_device := (try_device client_get_device).
Local Abbreviation scan_devices := (scan_devices client_get_device).
Local Abbreviation rejected := (rejected client_get_device).
Local Abbreviation accepted := (accepted client_get_device).

Ltac enter_candidate Hp Ha He :=
  unfold Account.try_device; rewrite Hp, lift_Ok_bind, Ha, lift_Ok_bind;
  unfold py_neb; rewrite He; simpl negb; cbv iota.

Lemma try_device_rejected (item : pyval) (lg : list event) :
  rejected item lg -> try_device item = (Ok None, lg).
Proof.
  intros H.
  destruct H as [product appliance Hp Ha He
                |product err id [Hp (appliance & Ha & He)] Hl Hex Hid
                |product id tuya key [Hp (appliance & Ha & He)] Hid Hg Hk Ht].
  - by enter_candidate Hp Ha He.
  - enter_candidate Hp Ha He. rewrite Hl, lift_Raise_bind.
    erewrite try_except_caught; [|reflexivity|exact Hex].
    rewrite Hid. by autorewrite with traced.
  - enter_candidate Hp Ha He. rewrite Hid. autorewrite with traced.
    rewrite Hg. autorewrite with traced.
    erewrite try_except_ok; [|reflexivity]. autorewrite with traced.
    rewrite Hk. autorewrite with traced. rewrite Ht. simpl negb. cbv iota.
    rewrite (py_index_get _ _ _ Hid). by autorewrite with traced.
Qed.

Lemma try_device_accepted (item key d : pyval) :
  accepted item key d -> try_device item = (Ok (Some d), []).
Proof.
  intros (product & id & tuya & [Hp (appliance & Ha & He)] & Hid & Hg & Hk & Ht & Hd).
  enter_candidate Hp Ha He. rewrite Hid. autorewrite with traced.
  rewrite Hg. autorewrite with traced.
  erewrite try_except_ok; [|reflexivity]. autorewrite with traced.
  rewrite Hk. autorewrite with traced. rewrite Ht. simpl negb. cbv iota.
  rewrite Hd. by autorewrite with traced.
Qed.

(** Whenever the body of the loop does not raise, the device was rejected for
    one of the three reasons or accepted. *)
Lemma try_device_inv (item : pyval) (r : option pyval) (lg : list event) :
  try_device item = (Ok r, lg) ->
  match r with
  | None => rejected item lg
  | Some d => lg = [] /\ exists key, accepted item key d
  end.
Proof.
  unfold Account.try_device.
  destruct (py_get_default "product" (VDict []) item) as [product|] eqn:Hp; [|discriminate].
  rewrite lift_Ok_bind.
  destruct (py_get "appliance" product) as [appliance|] eqn:Ha; [|discriminate].
  rewrite lift_Ok_bind. unfold py_neb.
  destruct (py_eqb appliance (VStr "Cleaning")) eqn:He; simpl negb; cbv iota.
  2:{ intros [= <- <-]. by eapply NotCleaning. }
  assert (Hc : cleaning item product) by (split; eauto).
  destruct (py_index "id" item ≫= λ id : pyval, client_get_device id)
    as [tuya|err] eqn:Hl.
  - autorewrite with traced.
    erewrite try_except_ok; [|reflexivity]. autorewrite with traced.
    destruct (py_index "id" item) as [id|] eqn:Hid; [|discriminate].
    rewrite result_Ok_bind in Hl.
    destruct (py_get "localKey" tuya) as [key|] eqn:Hk; [|discriminate].
    autorewrite with traced.
    destruct (truthy key) eqn:Ht; simpl negb; cbv iota.
    + destruct (descriptor item product key) as [d|] eqn:Hd; [|discriminate].
      autorewrite with traced. intros [= <- <-]. split; [done|].
      by exists key, product, id, tuya.
    + rewrite (py_index_get _ _ _ Hid). autorewrite with traced.
      intros [= <- <-]. by eapply NoLocalKey.
  - rewrite lift_Raise_bind.
    destruct (is_Exception err) eqn:Hex.
    + erewrite try_except_caught; [|reflexivity|exact Hex].
      destruct (py_get "id" item) as [id|] eqn:Hid; [|discriminate].
      autorewrite with traced. simpl. intros [= <- <-]. by eapply LookupFailed.
    + erewrite try_except_passed; [|reflexivity|exact Hex]. discriminate.
Qed.

Lemma scan_devices_cons (item : pyval) (rest : list pyval) :
  scan_devices (item :: rest) =
  match (try_device item).1 with
  | Ok (Some d) => (Ok d, (try_device item).2)
  | Ok None => ((scan_devices rest).1, (try_device item).2 ++ (scan_devices rest).2)
  | Raise e => (Raise e, (try_device item).2)
  end.
Proof.
  simpl. destruct (try_device item) as [[[d|]|e] tr]; rewrite bind_pair; simpl; try done.
  by rewrite app_nil_r.
Qed.

Lemma scan_devices_rejected (item : pyval) (lg : list event) (rest : list pyval) :
  rejected item lg ->
  scan_devices (item :: rest) = ((scan_devices rest).1, lg ++ (scan_devices rest).2).
Proof.
  intros H. by rewrite scan_devices_cons, (try_device_rejected item lg H).
Qed.

Lemma scan_devices_first_accepted (pre post : list pyval) (item key d : pyval) :
  Forall (fun x => exists lg, rejected x lg) pre ->
  accepted item key d ->
  (scan_devices (pre ++ item :: post)).1 = Ok d.
Proof.
  intros Hpre Hacc. induction Hpre as [|x pre [lg Hx] _ IH].
  - simpl app. by rewrite scan_devices_cons, (try_device_accepted item key d Hacc).
  - simpl app. by rewrite (scan_devices_rejected x lg _ Hx).
Qed.

Lemma scan_devices_none_usable (devices : list pyval) :
  Forall (fun x => exists lg, rejected x lg) devices ->
  (scan_devices devices).1 =
  Raise (VacuumLoginError [Lit "No RoboVac devices were found on this Eufy account."]).
Proof.
  induction 1 as [|x l [lg Hx] _ IH]; [reflexivity|].
  by rewrite (scan_devices_rejected x lg _ Hx).
Qed.

Lemma scan_devices_ok_inv (devices : list pyval) (d : pyval) (tr : list event) :
  scan_devices devices = (Ok d, tr) ->
  exists pre item post key,
    devices = pre ++ item :: post /\
    Forall (fun x => exists lg, rejected x lg) pre /\
    accepted item key d.
Proof.
  revert tr. induction devices as [|x l IH]; intros tr; [discriminate|].
  rewrite scan_devices_cons.
  destruct (try_device x) as [[[d'|]|e] lg] eqn:Hx; simpl; [| |discriminate].
  - intros [= -> <-]. apply try_device_inv in Hx as [_ [key Hacc]].
    by exists [], x, l, key.
  - intros Hl. apply try_device_inv in Hx.
    destruct (scan_devices l) as [r tr'] eqn:Hs. simpl in Hl.
    injection Hl as -> _.
    destruct (IH tr' eq_refl) as (pre & item & post & key & -> & Hpre & Hacc).
    exists (x :: pre), item, post, key. split; [done|]. split; [|done].
    constructor; eauto.
Qed.

(** C6: a device that is not a cleaning appliance is passed over silently, a
    candidate whose lookup raises is logged and passed over, and so is one
    without local key; the descriptor returned belongs to the first device in
    list order that is a cleaning appliance with a non-empty local key, and
    when every device is passed over the function raises
    [VacuumLoginError]. *)
Theorem first_usable_cleaning_device :
  (forall item lg rest, rejected item lg ->
     scan_devices (item :: rest) = ((scan_devices rest).1, lg ++ (scan_devices rest).2)) /\
  (forall devices d tr, scan_devices devices = (Ok d, tr) ->
     exists pre item post key,
       devices = pre ++ item :: post /\
       Forall (fun x => exists lg, rejected x lg) pre /\
       accepted item key d) /\
  (forall pre item post key d,
     Forall (fun x => exists lg, rejected x lg) pre ->
     accepted item key d ->
     (scan_devices (pre ++ item :: post)).1 = Ok d) /\
  (forall devices,
     Forall (fun x => exists lg, rejected x lg) devices ->
     (scan_devices devices).1 =
     Raise (VacuumLoginError [Lit "No RoboVac devices were found on this Eufy account."])).
Proof.
  split; [|split; [|split]].
  - intros item lg rest. apply scan_devices_rejected.
  - apply scan_devices_ok_inv.
  - intros pre item post key d. apply scan_devices_first_accepted.
  - apply scan_devices_none_usable.
Qed.

End Devices.

Import Examples.

Lemma camera_rejected : exists lg, rejected example_client camera lg.
Proof. eexists. by eapply NotCleaning. Qed.

Lemma cleaning_vacuum (id : string) :
  cleaning (vacuum id)
    (VDict [("appliance", VStr "Cleaning"); ("product_code", VStr "T2118123")]).
Proof. split; [reflexivity|]. by exists (VStr "Cleaning"). Qed.

Lemma failing_vacuum_rejected : exists lg, rejected example_client (vacuum "dev1") lg.
Proof.
  eexists. eapply LookupFailed; [apply cleaning_vacuum|reflexivity..].
Qed.

Lemma keyless_vacuum_rejected : exists lg, rejected example_client (vacuum "dev3") lg.
Proof.
  eexists. eapply NoLocalKey; [apply cleaning_vacuum|reflexivity..].
Qed.

Lemma keyed_vacuum_accepted :
  accepted example_client (vacuum "dev2") (VStr "k2") example_descriptor.
Proof.
  eexists _, _, _. split; [apply cleaning_vacuum|]. repeat split.
Qed.

Lemma first_usable_cleaning_device_witness :
  (scan_devices example_client
     ([camera; vacuum "dev1"; vacuum "dev3"] ++ vacuum "dev2" :: [vacuum "dev1"])).1
  = Ok example_descriptor /\
  (scan_devices example_client [camera; vacuum "dev1"; vacuum "dev3"]).1
  = Raise (VacuumLoginError [Lit "No RoboVac devices were found on this Eufy account."]).
Proof.
  assert (Hpre : Forall (fun x => exists lg, rejected example_client x lg)
                   [camera; vacuum "dev1"; vacuum "dev3"]).
  { repeat constructor;
      [apply camera_rejected|apply failing_vacuum_rejected|apply keyless_vacuum_rejected]. }
  destruct (first_usable_cleaning_device example_client) as (_ & _ & Hfirst & Hnone).
  split.
  - exact (Hfirst _ _ _ _ _ Hpre keyed_vacuum_accepted).
  - exact (Hnone _ Hpre).
Defined.

Lemma region_precedence_witness :
  region_and_country example_cloud
    (settings_with [("tuya_region_code", VStr "US")]) (VDict [("phone_code", VStr "49")])
  = Ok (VStr "US", VStr "49") /\
  region_and_country example_cloud
    (settings_with [("tuya_region_code", VStr "")]) (VDict [("phone_code", VStr "")])
  = Ok (VStr "EU", VStr "1") /\
  region_and_country example_cloud
    (settings_with []) (VDict [("phone_code", VStr "49"); ("country", VStr "DE")])
  = Ok (VStr "EU", VStr "49") /\
  region_and_country example_cloud (settings_with []) (VDict [("country", VStr "DE")])
  = Ok (VStr "EU", VStr "49") /\
  region_and_country example_cloud (settings_with []) (VDict [])
  = Ok (VStr "EU", VStr "44").
Proof.
  split; [|split; [|split; [|split]]].
  - destruct (region_precedence example_cloud
                (settings_with [("tuya_region_code", VStr "US")])
                [("tuya_region_code", VStr "US")] [("phone_code", VStr "49")] eq_refl)
      as [H _].
    exact (proj1 (H (VStr "US") eq_refl) eq_refl).
  - destruct (region_precedence example_cloud
                (settings_with [("tuya_region_code", VStr "")])
                [("tuya_region_code", VStr "")] [("phone_code", VStr "")] eq_refl)
      as [H _].
    exact (proj2 (H (VStr "") eq_refl) eq_refl).
  - destruct (region_precedence example_cloud (settings_with []) []
                [("phone_code", VStr "49"); ("country", VStr "DE")] eq_refl)
      as [_ H].
    exact (proj1 (H eq_refl) eq_refl).
  - destruct (region_precedence example_cloud (settings_with []) []
                [("country", VStr "DE")] eq_refl)
      as [_ H].
    exact (proj1 (proj2 (H eq_refl)) eq_refl eq_refl).
  - destruct (region_precedence example_cloud (settings_with []) [] [] eq_refl)
      as [_ H].
    exact (proj2 (proj2 (H eq_refl)) eq_refl eq_refl).
Defined.

End AccountProofs.

(** ** The LAN Discovery Listener *)

Module DiscoveryProofs.

Section Callback.

Variable device_id : pyval.

Lemma handle_discovery_other_device (payload : dict) (fut : future) :
  py_neb (dict_get "gwId" payload) device_id = true ->
  handle_discovery device_id payload fut = (Ok fut, []).
Proof. intros H. unfold handle_discovery. by rewrite H. Qed.

Lemma handle_discovery_resolves (payload : dict) :
  py_neb (dict_get "gwId" payload) device_id = false ->
  truthy (dict_get "ip" payload) = true ->
  handle_discovery device_id payload Pending =
  (Ok (Done (dict_get "ip" payload)),
   [ Logged INFO "Discovered %s at %s" [ArgVal device_id; ArgVal (dict_get "ip" payload)];
     SetResult (dict_get "ip" payload) ]).
Proof. intros Hg Hip. unfold handle_discovery. by rewrite Hg, Hip. Qed.

Lemma handle_discovery_done (payload : dict) (fut : future) :
  future_done fut = true ->
  handle_discovery device_id payload fut = (Ok fut, []).
Proof.
  intros Hd. unfold handle_discovery. rewrite Hd.
  destruct (py_neb _ _); [done|]. by rewrite andb_false_r.
Qed.

Lemma deliver_not_announcing (payload : dict) (fut : future) :
  announces device_id payload = false -> deliver device_id payload fut = (fut, []).
Proof.
  unfold announces, deliver, handle_discovery, py_neb. intros H.
  destruct (py_eqb (dict_get "gwId" payload) device_id); simpl in *; [|done].
  by rewrite H.
Qed.

Lemma deliver_announcing (payload : dict) :
  announces device_id payload = true ->
  deliver device_id payload Pending =
  (Done (dict_get "ip" payload),
   [ Logged INFO "Discovered %s at %s" [ArgVal device_id; ArgVal (dict_get "ip" payload)];
     SetResult (dict_get "ip" payload) ]).
Proof.
  unfold announces. intros [Hg Hip]%andb_true_iff.
  unfold deliver. rewrite handle_discovery_resolves; [done| |done].
  unfold py_neb. by rewrite Hg.
Qed.

Lemma deliver_done (payload : dict) (fut : future) :
  future_done fut = true -> deliver device_id payload fut = (fut, []).
Proof. intros H. unfold deliver. by rewrite handle_discovery_done. Qed.

Lemma deliver_all_cons (payload : dict) (rest : list dict) (fut : future) :
  deliver_all device_id (payload :: rest) fut =
  ((deliver_all device_id rest (deliver device_id payload fut).1).1,
   (deliver device_id payload fut).2 ++
   (deliver_all device_id rest (deliver device_id payload fut).1).2).
Proof. reflexivity. Qed.

Lemma deliver_all_done (payloads : list dict) (fut : future) :
  future_done fut = true -> deliver_all device_id payloads fut = (fut, []).
Proof.
  intros H. induction payloads as [|p l IH]; [done|].
  rewrite deliver_all_cons, (deliver_done p fut H). cbn [fst snd]. by rewrite IH.
Qed.

Lemma deliver_all_first (pre post : list dict) (payload : dict) :
  Forall (fun q => announces device_id q = false) pre ->
  announces device_id payload = true ->
  deliver_all device_id (pre ++ payload :: post) Pending =
  (Done (dict_get "ip" payload),
   [ Logged INFO "Discovered %s at %s" [ArgVal device_id; ArgVal (dict_get "ip" payload)];
     SetResult (dict_get "ip" payload) ]).
Proof.
  intros Hpre Ha. induction Hpre as [|q pre Hq _ IH]; simpl app; rewrite deliver_all_cons.
  - rewrite (deliver_announcing payload Ha). cbn [fst snd].
    by rewrite deliver_all_done.
  - rewrite (deliver_not_announcing q Pending Hq). cbn [fst snd]. by rewrite IH.
Qed.

(** C7: a payload of another device leaves the future as it is and sets no
    result; the first payload of the device with a non-empty address resolves
    the pending future with that address; once the future is done no payload
    resolves it again, so that over a whole run of broadcasts the result is
    set exactly once, by the first announcing payload. *)
Theorem discovery_resolves_once :
  (forall payload fut,
     py_neb (dict_get "gwId" payload) device_id = true ->
     handle_discovery device_id payload fut = (Ok fut, [])) /\
  (forall payload,
     py_neb (dict_get "gwId" payload) device_id = false ->
     truthy (dict_get "ip" payload) = true ->
     (handle_discovery device_id payload Pending).1 = Ok (Done (dict_get "ip" payload)) /\
     occurrences is_set_result (handle_discovery device_id payload Pending).2 = 1%nat) /\
  (forall payload ip, handle_discovery device_id payload (Done ip) = (Ok (Done ip), [])) /\
  (forall pre payload post,
     Forall (fun q => announces device_id q = false) pre ->
     announces device_id payload = true ->
     (deliver_all device_id (pre ++ payload :: post) Pending).1 = Done (dict_get "ip" payload) /\
     occurrences is_set_result (deliver_all device_id (pre ++ payload :: post) Pending).2
       = 1%nat).
Proof.
  split; [|split; [|split]].
  - apply handle_discovery_other_device.
  - intros payload Hg Hip. by rewrite (handle_discovery_resolves payload Hg Hip).
  - intros payload ip. by apply handle_discovery_done.
  - intros pre payload post Hpre Ha. by rewrite (deliver_all_first pre post payload Hpre Ha).
Qed.

Lemma deliver_trace (payload : dict) (fut : future) :
  occurrences is_close (deliver device_id payload fut).2 = 0%nat.
Proof.
  destruct (announces device_id payload) eqn:Ha.
  - destruct fut.
    + by rewrite (deliver_announcing payload Ha).
    + by rewrite deliver_done.
    + by rewrite deliver_done.
  - by rewrite (deliver_not_announcing payload fut Ha).
Qed.

Lemma occurrences_app (p : event -> bool) (t1 t2 : list event) :
  occurrences p (t1 ++ t2) = (occurrences p t1 + occurrences p t2)%nat.
Proof. unfold occurrences. by rewrite List.filter_app, length_app. Qed.

Section Wait.

Variable timeout : Q.

Local Abbreviation silent := (silent device_id timeout).

Lemma wait_for_cons (t : Q) (payload : dict) (rest : list (Q * dict)) :
  wait_for device_id timeout ((t, payload) :: rest) Pending =
  if Qlt_le_dec t timeout then
    ((wait_for device_id timeout rest (deliver device_id payload Pending).1).1,
     (deliver device_id payload Pending).2 ++
     (wait_for device_id timeout rest (deliver device_id payload Pending).1).2)
  else (Raise TimeoutError, []).
Proof. simpl. by destruct (Qlt_le_dec t timeout). Qed.

Lemma wait_for_silent (incoming : list (Q * dict)) :
  silent incoming ->
  wait_for device_id timeout incoming Pending = (Raise TimeoutError, []).
Proof.
  induction 1 as [|[t p] l Hp _ IH]; [reflexivity|].
  rewrite wait_for_cons. destruct (Qlt_le_dec t timeout) as [Hlt|]; [|reflexivity].
  rewrite (deliver_not_announcing p Pending (Hp Hlt)). cbn [fst snd]. by rewrite IH.
Qed.

Lemma wait_for_announced (pre post : list (Q * dict)) (t : Q) (payload : dict) :
  Forall (fun tp => (tp.1 < timeout)%Q /\ announces device_id tp.2 = false) pre ->
  (t < timeout)%Q ->
  announces device_id payload = true ->
  wait_for device_id timeout (pre ++ (t, payload) :: post) Pending =
  (Ok (dict_get "ip" payload),
   [ Logged INFO "Discovered %s at %s" [ArgVal device_id; ArgVal (dict_get "ip" payload)];
     SetResult (dict_get "ip" payload) ]).
Proof.
  intros Hpre Ht Ha. induction Hpre as [|[t' q] pre [Hlt Hq] _ IH]; simpl app;
    rewrite wait_for_cons.
  - destruct (Qlt_le_dec t timeout) as [_|Hge]; [|by apply Qle_not_lt in Hge].
    rewrite (deliver_announcing payload Ha). cbn [fst snd].
    by destruct post.
  - simpl in Hlt, Hq.
    destruct (Qlt_le_dec t' timeout) as [_|Hge]; [|by apply Qle_not_lt in Hge].
    rewrite (deliver_not_announcing q Pending Hq). cbn [fst snd]. by rewrite IH.
Qed.

Lemma wait_for_no_close (incoming : list (Q * dict)) (fut : future) :
  occurrences is_close (wait_for device_id timeout incoming fut).2 = 0%nat.
Proof.
  revert fut. induction incoming as [|[t p] l IH]; intros fut.
  - by destruct fut.
  - destruct fut; [|done..].
    rewrite wait_for_cons. destruct (Qlt_le_dec t timeout); [|done].
    cbn [snd]. by rewrite occurrences_app, deliver_trace, IH.
Qed.

Lemma discover_started (lan : Lan) :
  start_outcome lan = Ok tt ->
  discover_device_ip lan device_id timeout =
  (let w := wait_for device_id timeout (broadcasts lan) Pending in
   (match w.1 with
    | Ok ip => Ok ip
    | Raise e => if is_TimeoutError e then Raise timed_out else Raise e
    end,
    ListenerStart :: w.2 ++ [ListenerClose])).
Proof.
  intros Hs. unfold discover_device_ip. rewrite Hs.
  erewrite (try_except_ok is_PortsNotAvailable); [|reflexivity].
  rewrite emit_bind, bind_pair. cbn [fst snd].
  destruct (wait_for device_id timeout (broadcasts lan) Pending) as [[ip|e] tr] eqn:Hw.
  - reflexivity.
  - cbn [fst snd]. destruct (is_TimeoutError e) eqn:He.
    + erewrite try_except_caught; [|reflexivity|exact He].
      unfold try_finally. cbn [fst snd raise emit]. by rewrite app_nil_r.
    + erewrite try_except_passed; [|reflexivity|exact He]. reflexivity.
Qed.

Lemma discover_ports_unavailable (lan : Lan) (m : message) :
  start_outcome lan = Raise (DiscoveryPortsNotAvailableException m) ->
  discover_device_ip lan device_id timeout =
  (Raise (VacuumLoginError m), [ListenerStart; ListenerClose]).
Proof. intros Hs. unfold discover_device_ip. by rewrite Hs. Qed.

(** C8: without an announcement of the device before the deadline the
    discovery raises the time-out [VacuumLoginError]; and whether it ends
    with an address, with the time-out or with the ports being unavailable at
    start-up, the listener is closed exactly once.  The default deadline is
    60 seconds. *)
Theorem discovery_timeout_and_close (lan : Lan) :
  (start_outcome lan = Ok tt -> silent (broadcasts lan) ->
     discover_device_ip lan device_id timeout =
     (Raise timed_out, [ListenerStart; ListenerClose])) /\
  (forall pre t payload post,
     start_outcome lan = Ok tt ->
     broadcasts lan = pre ++ (t, payload) :: post ->
     Forall (fun tp => (tp.1 < timeout)%Q /\ announces device_id tp.2 = false) pre ->
     (t < timeout)%Q ->
     announces device_id payload = true ->
     (discover_device_ip lan device_id timeout).1 = Ok (dict_get "ip" payload) /\
     occurrences is_close (discover_device_ip lan device_id timeout).2 = 1%nat) /\
  (forall m, start_outcome lan = Raise (DiscoveryPortsNotAvailableException m) ->
     discover_device_ip lan device_id timeout =
     (Raise (VacuumLoginError m), [ListenerStart; ListenerClose])) /\
  ((start_outcome lan = Ok tt \/
    exists m, start_outcome lan = Raise (DiscoveryPortsNotAvailableException m)) ->
     occurrences is_close (discover_device_ip lan device_id timeout).2 = 1%nat) /\
  default_timeout = 60%Q.
Proof.
  split; [|split; [|split; [|split]]].
  - intros Hs Hsilent. rewrite (discover_started lan Hs), (wait_for_silent _ Hsilent).
    reflexivity.
  - intros pre t payload post Hs Hb Hpre Ht Ha.
    rewrite (discover_started lan Hs), Hb, (wait_for_announced pre post t payload Hpre Ht Ha).
    split; reflexivity.
  - apply discover_ports_unavailable.
  - intros [Hs|[m Hs]].
    + rewrite (discover_started lan Hs). cbv zeta. cbn [snd].
      change (ListenerStart :: ?l) with ([ListenerStart] ++ l).
      rewrite !occurrences_app, wait_for_no_close. reflexivity.
    + by rewrite (discover_ports_unavailable lan m Hs).
  - reflexivity.
Qed.

End Wait.

End Callback.

Import Examples.

Lemma discovery_resolves_once_witness :
  (deliver_all (VStr "dev2")
     ([announcement "dev9" "10.0.0.9"; announcement "dev2" ""] ++
      announcement "dev2" "192.168.1.42" ::
      [announcement "dev2" "192.168.1.42"; announcement "dev2" "192.168.1.43"])
     Pending).1 = Done (VStr "192.168.1.42") /\
  occurrences is_set_result
    (deliver_all (VStr "dev2")
       ([announcement "dev9" "10.0.0.9"; announcement "dev2" ""] ++
        announcement "dev2" "192.168.1.42" ::
        [announcement "dev2" "192.168.1.42"; announcement "dev2" "192.168.1.43"])
       Pending).2 = 1%nat.
Proof.
  destruct (discovery_resolves_once (VStr "dev2")) as (_ & _ & _ & H).
  apply (H [announcement "dev9" "10.0.0.9"; announcement "dev2" ""]
           (announcement "dev2" "192.168.1.42")).
  - repeat constructor.
  - reflexivity.
Defined.

Lemma discovery_timeout_and_close_witness :
  discover_device_ip late_lan (VStr "dev2") default_timeout =
    (Raise timed_out, [ListenerStart; ListenerClose]) /\
  ((discover_device_ip busy_lan (VStr "dev2") default_timeout).1 = Ok (VStr "192.168.1.42") /\
   occurrences is_close (discover_device_ip busy_lan (VStr "dev2") default_timeout).2 = 1%nat) /\
  discover_device_ip blocked_lan (VStr "dev2") default_timeout =
    (Raise (VacuumLoginError [Lit "Ports 6666 and 6667 are not available."]),
     [ListenerStart; ListenerClose]) /\
  occurrences is_close (discover_device_ip late_lan (VStr "dev2") default_timeout).2 = 1%nat.
Proof.
  split; [|split; [|split]].
  - destruct (discovery_timeout_and_close (VStr "dev2") default_timeout late_lan)
      as (H & _).
    apply H.
    + reflexivity.
    + constructor; [intros _; reflexivity|].
      constructor; [|constructor].
      intros Hlt. vm_compute in Hlt. discriminate Hlt.
  - destruct (discovery_timeout_and_close (VStr "dev2") default_timeout busy_lan)
      as (_ & H & _).
    apply (H [(1%Q, announcement "dev9" "10.0.0.9")] 2%Q
             (announcement "dev2" "192.168.1.42")
             [(3%Q, announcement "dev2" "192.168.1.42")]).
    + reflexivity.
    + reflexivity.
    + repeat constructor.
    + reflexivity.
    + reflexivity.
  - destruct (discovery_timeout_and_close (VStr "dev2") default_timeout blocked_lan)
      as (_ & _ & H & _).
    apply H. reflexivity.
  - destruct (discovery_timeout_and_close (VStr "dev2") default_timeout late_lan)
      as (_ & _ & _ & H & _).
    apply H. left. reflexivity.
Defined.

End DiscoveryProofs.

(** ** The Main Orchestrator *)

Module OrchestratorProofs.

Import Reporter Orchestrator AccountProofs.

Lemma model_code_of_string (d : dict) (product_code : string) :
  dict_lookup "model" d = Some (VStr product_code) ->
  model_code_of (VDict d) = Ok (VStr (String.substring 0 5 product_code)).
Proof.
  intros H. unfold model_code_of, py_get, py_get_default, dict_get_default.
  rewrite H, result_Ok_bind. unfold py_or.
  by destruct (truthy (VStr product_code)) eqn:Ht; [|destruct product_code].
Qed.

Lemma model_code_of_falsy (d : dict) :
  truthy (dict_get "model" d) = false ->
  model_code_of (VDict d) = Ok (VStr "").
Proof.
  intros H. unfold model_code_of, py_get, py_get_default.
  fold (dict_get "model" d). rewrite result_Ok_bind. unfold py_or. by rewrite H.
Qed.

Section Session.

Variable s : Session.

Lemma main_session_no_code (vacuum_details model_code : pyval) :
  model_code_of vacuum_details = Ok model_code ->
  truthy model_code = false ->
  main_session s vacuum_details =
  (Raise (VacuumLoginError [Lit "The vacuum did not report a model code."]), []).
Proof.
  intros Hm Ht. unfold main_session. rewrite Hm, lift_Ok_bind, Ht. reflexivity.
Qed.

Lemma main_session_unsupported (vacuum_details model_code device_id host local_key : pyval) :
  model_code_of vacuum_details = Ok model_code ->
  truthy model_code = true ->
  existsb (py_eqb model_code) (supported_models s) = false ->
  py_index "id" vacuum_details = Ok device_id ->
  py_index "ip_address" vacuum_details = Ok host ->
  py_index "access_token" vacuum_details = Ok local_key ->
  main_session s vacuum_details =
  (Raise (VacuumLoginError
            [Lit "Model "; Interp model_code;
             Lit " is not supported by the RoboVac integration."]),
   [SessionInit model_code device_id host local_key]).
Proof.
  intros Hm Ht Hu Hid Hip Hkey. unfold main_session.
  rewrite Hm, lift_Ok_bind, Ht. simpl negb. cbv iota.
  rewrite Hid, Hip, Hkey. autorewrite with traced. cbn [fst snd].
  unfold RoboVac_init. rewrite Hu.
  erewrite (try_except_caught is_ModelNotSupported); [|reflexivity..].
  reflexivity.
Qed.

(** C9: a descriptor whose model code, the first five characters of its
    product code, is not among the supported models makes the construction of
    the session fail; [main] raises [VacuumLoginError] and no connection is
    ever attempted. *)
Theorem unsupported_model_never_connects (d : dict) (product_code : string)
    (device_id host local_key : pyval) :
  dict_lookup "model" d = Some (VStr product_code) ->
  let model_code := VStr (String.substring 0 5 product_code) in
  existsb (py_eqb model_code) (supported_models s) = false ->
  dict_lookup "id" d = Some device_id ->
  dict_lookup "ip_address" d = Some host ->
  dict_lookup "access_token" d = Some local_key ->
  (exists msg, (main_session s (VDict d)).1 = Raise (VacuumLoginError msg)) /\
  occurrences is_connect (main_session s (VDict d)).2 = 0%nat /\
  (product_code ≠ "" ->
     RoboVac_init s model_code = Raise (ModelNotSupportedException [Interp model_code]) /\
     main_session s (VDict d) =
     (Raise (VacuumLoginError
               [Lit "Model "; Interp model_code;
                Lit " is not supported by the RoboVac integration."]),
      [SessionInit model_code device_id host local_key])).
Proof.
  intros Hm model_code Hu Hid Hip Hkey.
  pose proof (model_code_of_string d product_code Hm) as Hcode. fold model_code in Hcode.
  destruct (truthy model_code) eqn:Ht.
  - rewrite (main_session_unsupported (VDict d) model_code device_id host local_key
               Hcode Ht Hu (py_index_lookup _ _ _ Hid) (py_index_lookup _ _ _ Hip)
               (py_index_lookup _ _ _ Hkey)).
    split; [by eexists|]. split; [reflexivity|]. intros _. split; [|reflexivity].
    unfold RoboVac_init. by rewrite Hu.
  - rewrite (main_session_no_code (VDict d) model_code Hcode Ht).
    split; [by eexists|]. split; [reflexivity|]. intros Hne.
    destruct product_code; [done|discriminate Ht].
Qed.

(** C10: when the product code of the resolved device is empty, so that the
    model code is the empty string, [main] raises [VacuumLoginError] and the
    constructor of the session is never called. *)
Theorem empty_model_code_is_fatal (d : dict) :
  truthy (dict_get "model" d) = false ->
  model_code_of (VDict d) = Ok (VStr "") /\
  main_session s (VDict d) =
  (Raise (VacuumLoginError [Lit "The vacuum did not report a model code."]), []) /\
  occurrences is_init (main_session s (VDict d)).2 = 0%nat.
Proof.
  intros H. pose proof (model_code_of_falsy d H) as Hcode.
  rewrite (main_session_no_code (VDict d) (VStr "") Hcode eq_refl).
  by repeat split.
Qed.

End Session.

(** Once the account and the address are resolved, [main] goes on with the
    session part. *)
Lemma main_resolved (w : World) (vd name model device_id ip vd' : pyval)
    (tr1 tr2 : list event) :
  typed_email w ≠ "" ->
  typed_password w ≠ "" ->
  fetch_first_vacuum (cloud w) (typed_email w) (typed_password w) = (Ok vd, tr1) ->
  py_index "name" vd = Ok name ->
  py_index "model" vd = Ok model ->
  py_index "id" vd = Ok device_id ->
  discover_device_ip (lan w) device_id default_timeout = (Ok ip, tr2) ->
  py_setitem "ip_address" ip vd = Ok vd' ->
  main w =
  ((main_session (session w) vd').1,
   Logged INFO "Logging in to the Eufy and Tuya services..." [] ::
   tr1 ++
   [ Logged INFO "Found RoboVac '%s' (model %s)" [ArgVal name; ArgVal model];
     Logged INFO "Waiting for the vacuum to broadcast its IP address..." [] ] ++
   tr2 ++ (main_session (session w) vd').2).
Proof.
  intros He Hp Hf Hn Hm Hid Hd Hs. unfold main.
  apply String.eqb_neq in He, Hp. rewrite He, Hp. simpl orb. cbv iota.
  rewrite emit_bind, Hf, bind_pair. cbn [fst snd].
  rewrite Hn, lift_Ok_bind, Hm, lift_Ok_bind, !emit_bind. cbn [fst snd].
  rewrite Hid, lift_Ok_bind, Hd, bind_pair. cbn [fst snd].
  rewrite Hs, lift_Ok_bind. reflexivity.
Qed.

Import Examples.

Lemma unsupported_model_never_connects_witness :
  (exists msg,
     (main_session example_session (VDict (resolved "T9999123"))).1 =
     Raise (VacuumLoginError msg)) /\
  occurrences is_connect (main_session example_session (VDict (resolved "T9999123"))).2
    = 0%nat /\
  ("T9999123" ≠ "" ->
     RoboVac_init example_session (VStr "T9999") =
       Raise (ModelNotSupportedException [Interp (VStr "T9999")]) /\
     main_session example_session (VDict (resolved "T9999123")) =
     (Raise (VacuumLoginError
               [Lit "Model "; Interp (VStr "T9999");
                Lit " is not supported by the RoboVac integration."]),
      [SessionInit (VStr "T9999") (VStr "dev2") (VStr "192.168.1.42") (VStr "k2")])).
Proof.
  apply (unsupported_model_never_connects example_session (resolved "T9999123") "T9999123"
           (VStr "dev2") (VStr "192.168.1.42") (VStr "k2"));
    reflexivity.
Defined.

Lemma empty_model_code_is_fatal_witness :
  model_code_of (VDict (resolved "")) = Ok (VStr "") /\
  main_session example_session (VDict (resolved "")) =
  (Raise (VacuumLoginError [Lit "The vacuum did not report a model code."]), []) /\
  occurrences is_init (main_session example_session (VDict (resolved ""))).2 = 0%nat.
Proof.
  apply (empty_model_code_is_fatal example_session (resolved "")). reflexivity.
Defined.

(** A supported model goes through: the session is built, connected and
    queried, and torn down after the interrupt. *)
Example supported_model_connects :
  (main_session example_session (VDict (resolved "T2118123"))).1 = Ok tt /\
  occurrences is_connect (main_session example_session (VDict (resolved "T2118123"))).2
    = 1%nat.
Proof. split; vm_compute; reflexivity. Qed.

(** The whole scenario: the first vacuum is skipped with a log record, the
    second one is found at 192.168.1.42, the first state and the update are
    printed, and the session is connected and disconnected once. *)
Example scenario_runs :
  fetch_first_vacuum scenario_cloud "me@example.org" "secret" =
    (Ok example_descriptor,
     [ Logged DEBUG "Skipping device %s due to Tuya API error: %s"
         [ArgVal (VStr "dev1"); ArgExn (OtherException [Lit "device lookup failed"])] ]) /\
  (script true scenario).1 = Ok tt /\
  List.filter is_printed (script true scenario).2 =
    [ Printed (PrintLine (String.append newline "[2024-01-01T10:00:00] Received vacuum update:"));
      Printed (PrintJson 2 true {[ "battery" := VInt 80 ]});
      Printed (PrintLine "");
      Printed (PrintLine
        "Listening for vacuum status changes... Go to your Eufy app and start a room clean to see the logs. Press Ctrl+C to exit.");
      Printed (PrintLine (String.append newline "[2024-01-01T10:00:05] Received vacuum update:"));
      Printed (PrintJson 2 true
                 ({[ "battery" := VInt 79 ]} ∪ {[ "state" := VStr "cleaning" ]}));
      Printed (PrintLine "");
      Printed (PrintLine (String.append newline "Disconnecting from the vacuum...")) ] /\
  occurrences is_connect (script true scenario).2 = 1%nat /\
  occurrences is_disconnect (script true scenario).2 = 1%nat /\
  occurrences is_close (script true scenario).2 = 1%nat.
Proof. repeat split; vm_compute; reflexivity. Qed.

End OrchestratorProofs.

(** ** Python equality on JSON values *)

Module PyProofs.

Import Observations.

(** Induction on values, through lists and objects. *)
Lemma pyval_nested_ind (P : pyval -> Prop) :
  P VNone ->
  (forall b, P (VBool b)) ->
  (forall z, P (VInt z)) ->
  (forall s, P (VStr s)) ->
  (forall l, Forall P l -> P (VList l)) ->
  (forall d, Forall (fun kv => P kv.2) d -> P (VDict d)) ->
  forall v, P v.
Proof.
  intros HN HB HI HS HL HD. fix IH 1. intros [ |b|z|s|l|d].
  - exact HN.
  - apply HB.
  - apply HI.
  - apply HS.
  - apply HL. revert l. fix IHl 1. intros [|x l]; constructor; [apply IH|apply IHl].
  - apply HD. revert d. fix IHd 1. intros [|[k x] d]; constructor; [apply IH|apply IHd].
Qed.

Local Abbreviation all_in d1 d2 :=
  ((fix go (d : dict) : bool :=
      match d with
      | [] => true
      | (k, v) :: d' =>
          match dict_lookup k d2 with
          | Some w => py_eqb v w
          | None => false
          end && go d'
      end) d1).

Lemma py_eqb_dict (d1 d2 : dict) :
  py_eqb (VDict d1) (VDict d2) = (length d1 =? length d2)%nat && all_in d1 d2.
Proof. reflexivity. Qed.

Lemma all_in_intro (d1 d2 : dict) :
  Forall (fun kv => dict_lookup kv.1 d2 = Some kv.2 /\ py_eqb kv.2 kv.2 = true) d1 ->
  all_in d1 d2 = true.
Proof.
  induction 1 as [|[k v] d [Hl He] _ IH]; [reflexivity|].
  simpl in Hl, He. rewrite Hl, He. exact IH.
Qed.

Lemma wf_json_dict_cons (k : string) (v : pyval) (d : dict) :
  wf_json (VDict ((k, v) :: d)) =
  negb (dict_has k d) && wf_json v && wf_json (VDict d).
Proof. reflexivity. Qed.

Lemma wf_json_list_cons (v : pyval) (l : list pyval) :
  wf_json (VList (v :: l)) = wf_json v && wf_json (VList l).
Proof. reflexivity. Qed.

(** In an object without duplicate keys every entry is found under its key. *)
Lemma wf_dict_lookup (d : dict) :
  wf_json (VDict d) = true ->
  Forall (fun kv => dict_lookup kv.1 d = Some kv.2 /\ wf_json kv.2 = true) d.
Proof.
  induction d as [|[k v] d IH]; [constructor|].
  rewrite wf_json_dict_cons. intros [[Hk Hv]%andb_true_iff Hd]%andb_true_iff.
  constructor.
  - split; [|exact Hv]. simpl. by rewrite String.eqb_refl.
  - eapply Forall_impl; [exact (IH Hd)|].
    intros [k' v'] [Hl Hw]. split; [|exact Hw]. simpl in *.
    destruct (String.eqb k k') eqn:E; [|exact Hl].
    apply String.eqb_eq in E. subst k'.
    unfold dict_has in Hk. by rewrite Hl in Hk.
Qed.

(** [v == v] holds for every JSON value. *)
Lemma py_eqb_refl (v : pyval) : wf_json v = true -> py_eqb v v = true.
Proof.
  induction v as [ |b|z|s|l IH|d IH] using pyval_nested_ind; intros Hwf.
  - reflexivity.
  - by destruct b.
  - apply Z.eqb_refl.
  - apply String.eqb_refl.
  - induction IH as [|x l Hx _ IHl]; [reflexivity|].
    rewrite wf_json_list_cons in Hwf. apply andb_true_iff in Hwf as [Hwx Hwl].
    change (py_eqb x x && py_eqb (VList l) (VList l) = true).
    by rewrite (Hx Hwx), (IHl Hwl).
  - rewrite py_eqb_dict, Nat.eqb_refl. simpl andb.
    apply all_in_intro.
    pose proof (wf_dict_lookup d Hwf) as Hl.
    rewrite Forall_forall in *. intros kv Hin.
    destruct (Hl kv Hin) as [H1 H2]. split; [exact H1|]. by apply IH.
Qed.

End PyProofs.

(** ** More on the Change Reporter *)

Module ReporterExtras.

Import Reporter ReporterProofs Orchestrator Observations PyProofs.

(** X1: Whatever is reported is a field of the current state, with its current
    value, and differs from what the snapshot returns for it; a field that the
    current state lacks is never reported, also when the snapshot has it. *)
Theorem reported_fields_are_current (previous current : state) (k : string) (v : pyval) :
  changes_of previous current !! k = Some v ->
  current !! k = Some v /\ py_eqb (snapshot_get previous k) v = false.
Proof.
  rewrite changes_of_lookup. destruct (current !! k) as [w|]; [|discriminate].
  unfold py_neb. destruct (py_eqb (snapshot_get previous k) w) eqn:E; simpl; [discriminate|].
  by intros [= ->].
Qed.

Lemma reported_fields_are_current_witness :
  ({[ "a" := VInt 3 ]} : state) !! "a" = Some (VInt 3) /\
  py_eqb (snapshot_get ({[ "a" := VInt 1 ]} ∪ {[ "b" := VInt 2 ]}) "a") (VInt 3) = false.
Proof.
  apply (reported_fields_are_current
           ({[ "a" := VInt 1 ]} ∪ {[ "b" := VInt 2 ]}) {[ "a" := VInt 3 ]} "a" (VInt 3)).
  rewrite changes_of_lookup. reflexivity.
Defined.

(** A field that the device stops reporting is not part of the ChangeSet:
    removals are silent. *)
Theorem removed_field_is_not_reported (previous current : state) (k : string) :
  current !! k = None -> changes_of previous current !! k = None.
Proof. intros H. by rewrite changes_of_lookup, H. Qed.

Lemma removed_field_is_not_reported_witness :
  changes_of ({[ "a" := VInt 1 ]} ∪ {[ "b" := VInt 2 ]}) {[ "a" := VInt 3 ]} !! "b" = None.
Proof.
  apply (removed_field_is_not_reported
           ({[ "a" := VInt 1 ]} ∪ {[ "b" := VInt 2 ]}) {[ "a" := VInt 3 ]} "b").
  reflexivity.
Defined.

(** X2: [!=] identifies [True] with [1] and [False] with [0]: a field that goes
    from the integer to the boolean, or back, is not reported. *)
Theorem bool_int_change_is_not_reported (previous current : state) (k : string) (b : bool) :
  (previous !! k = Some (VInt (bool_to_Z b)) /\ current !! k = Some (VBool b)) \/
  (previous !! k = Some (VBool b) /\ current !! k = Some (VInt (bool_to_Z b))) ->
  changes_of previous current !! k = None.
Proof.
  intros [[Hp Hc]|[Hp Hc]]; rewrite changes_of_lookup, Hc;
    unfold snapshot_get, py_neb; rewrite Hp; simpl; by destruct b.
Qed.

Lemma bool_int_change_is_not_reported_witness :
  changes_of {[ "on" := VInt 1 ]} {[ "on" := VBool true ]} !! "on" = None.
Proof.
  apply (bool_int_change_is_not_reported
           {[ "on" := VInt 1 ]} {[ "on" := VBool true ]} "on" true).
  left. split; reflexivity.
Defined.

(** X3: The callback is idempotent: the same state reported a second time prints
    nothing, whatever the snapshot was before the first report. *)
Theorem repeated_update_is_silent (ts1 ts2 : string) (previous current : state) :
  current ≠ ∅ ->
  (forall k v, current !! k = Some v -> wf_json v = true) ->
  log_state_update ts2 (session_with current)
    (log_state_update ts1 (session_with current) previous).1 = (current, []).
Proof.
  intros Hne Hwf.
  rewrite (log_state_update_nonempty ts1 previous current Hne). cbn [fst].
  rewrite (log_state_update_nonempty ts2 current current Hne).
  assert (He : changes_of current current = ∅).
  { apply changes_of_empty. intros k v Hk. unfold snapshot_get. rewrite Hk.
    apply py_eqb_refl. by eapply Hwf. }
  by rewrite He.
Qed.

Lemma repeated_update_is_silent_witness :
  log_state_update "t2" (session_with {[ "battery" := VInt 80 ]})
    (log_state_update "t1" (session_with {[ "battery" := VInt 80 ]}) ∅).1
  = ({[ "battery" := VInt 80 ]}, []).
Proof.
  apply (repeated_update_is_silent "t1" "t2" ∅ {[ "battery" := VInt 80 ]}).
  - intros H. apply (f_equal (fun m : state => m !! "battery")) in H.
    vm_compute in H. discriminate H.
  - intros k v Hk. apply lookup_singleton_Some in Hk as [_ <-]. reflexivity.
Defined.

Lemma push_nothing (ts : string) (st : option state) (previous : state) :
  reports_nothing st = true -> push (ts, st) previous = (previous, []).
Proof.
  unfold push, log_state_update. simpl. destruct st as [s|]; simpl; [|done].
  by intros ->.
Qed.

Lemma push_something (ts : string) (s : state) (previous : state) :
  state_is_empty s = false ->
  (push (ts, Some s) previous).1 = s /\
  Forall (fun e => is_printed e = true) (push (ts, Some s) previous).2.
Proof.
  intros H. unfold push, log_state_update. simpl. rewrite H.
  destruct (state_is_empty (changes_of previous s)); simpl; split; try done.
  repeat constructor.
Qed.

Lemma run_pushes_cons (p : string * option state) (rest : list (string * option state))
    (previous : state) :
  run_pushes (p :: rest) previous =
  ((run_pushes rest (push p previous).1).1,
   (push p previous).2 ++ (run_pushes rest (push p previous).1).2).
Proof. reflexivity. Qed.

Lemma run_pushes_app (ps1 ps2 : list (string * option state)) (previous : state) :
  run_pushes (ps1 ++ ps2) previous =
  ((run_pushes ps2 (run_pushes ps1 previous).1).1,
   (run_pushes ps1 previous).2 ++ (run_pushes ps2 (run_pushes ps1 previous).1).2).
Proof.
  revert previous. induction ps1 as [|p ps1 IH]; intros previous.
  - simpl. by destruct (run_pushes ps2 previous).
  - simpl app. rewrite !run_pushes_cons, IH. cbn [fst snd]. by rewrite app_assoc.
Qed.

Lemma run_pushes_prints (ps : list (string * option state)) (previous : state) :
  Forall (fun e => is_printed e = true) (run_pushes ps previous).2.
Proof.
  revert previous. induction ps as [|[ts st] ps IH]; intros previous; [constructor|].
  rewrite run_pushes_cons. cbn [snd]. apply Forall_app. split; [|apply IH].
  unfold push. cbn [snd]. apply Forall_forall. intros e [o [-> _]]%list_elem_of_fmap.
  reflexivity.
Qed.

(** X4: After any run of pushes the stored snapshot is the last non-empty state
    that was pushed (the initial snapshot if there was none), and the run
    does nothing but print. *)
Theorem snapshot_tracks_last_state (ps : list (string * option state)) (previous : state) :
  (run_pushes ps previous).1 = last_reported ps previous /\
  Forall (fun e => is_printed e = true) (run_pushes ps previous).2.
Proof.
  revert previous. induction ps as [|[ts st] ps IH]; intros previous.
  - split; [reflexivity|constructor].
  - rewrite run_pushes_cons. cbn [fst snd last_reported].
    destruct (reports_nothing st) eqn:Hr.
    + rewrite (push_nothing ts st previous Hr). cbn [fst snd].
      destruct (IH previous) as [H1 H2]. split; [|exact H2].
      rewrite H1. destruct st as [s|]; [|done]. simpl in Hr. by rewrite Hr.
    + destruct st as [s|]; [|discriminate]. simpl in Hr.
      destruct (push_something ts s previous Hr) as [Hs Hp]. rewrite Hs, Hr.
      destruct (IH s) as [H1 H2]. split; [exact H1|].
      apply Forall_app. by split.
Qed.

(** X5: A push without state, or with an empty one, leaves no trace: the run
    goes on as if it had not happened. *)
Theorem empty_push_is_transparent (ps1 ps2 : list (string * option state)) (ts : string)
    (st : option state) (previous : state) :
  reports_nothing st = true ->
  run_pushes (ps1 ++ (ts, st) :: ps2) previous = run_pushes (ps1 ++ ps2) previous.
Proof.
  intros H. rewrite !run_pushes_app, run_pushes_cons, (push_nothing ts st _ H).
  reflexivity.
Qed.

Lemma empty_push_is_transparent_witness :
  run_pushes ([("t1", Some {[ "a" := VInt 1 ]})] ++ ("t2", Some ∅) :: [("t3", None)]) ∅ =
  run_pushes ([("t1", Some {[ "a" := VInt 1 ]})] ++ [("t3", None)]) ∅.
Proof.
  apply (empty_push_is_transparent [("t1", Some {[ "a" := VInt 1 ]})] [("t3", None)]
           "t2" (Some ∅) ∅).
  reflexivity.
Defined.

End ReporterExtras.

(** ** More on the Account Resolver *)

Module AccountExtras.

Import Observations AccountProofs.

Lemma py_index_missing (key : string) (d : dict) :
  dict_lookup key d = None -> py_index key (VDict d) = Raise (KeyError key).
Proof. intros H. unfold py_index. by rewrite H. Qed.

Lemma py_get_default_found (key : string) (default v : pyval) (d : dict) :
  dict_lookup key d = Some v -> py_get_default key default (VDict d) = Ok v.
Proof. intros H. unfold py_get_default, dict_get_default. by rewrite H. Qed.

Lemma py_get_default_missing (key : string) (default : pyval) (d : dict) :
  dict_lookup key d = None -> py_get_default key default (VDict d) = Ok default.
Proof. intros H. unfold py_get_default, dict_get_default. by rewrite H. Qed.

Section Login.

Variable cloud : Cloud.
Variables email password : string.

(** X6: Without a response from the login end point, or with a status other than
    200, the resolver fails with the "unreachable" error before anything else
    is requested or logged. *)
Theorem login_unreachable :
  (get_user_info cloud email password = Ok None \/
   exists resp, get_user_info cloud email password = Ok (Some resp) /\
                status_code resp ≠ 200) ->
  _fetch_first_vacuum_sync cloud email password =
  (Raise (VacuumLoginError
            [Lit "Failed to reach the Eufy API. Check your credentials or network."]), []).
Proof.
  unfold _fetch_first_vacuum_sync. intros [H|(resp & H & Hs)]; rewrite H, lift_Ok_bind.
  - reflexivity.
  - apply Z.eqb_neq in Hs. by rewrite Hs.
Qed.

(** X7: A body whose [res_code] is not 1, or is missing, is a rejected login. *)
Theorem login_rejected (resp : response) (body : dict) :
  get_user_info cloud email password = Ok (Some resp) ->
  status_code resp = 200 ->
  json resp = Ok (VDict body) ->
  py_eqb (dict_get "res_code" body) (VInt 1) = false ->
  _fetch_first_vacuum_sync cloud email password =
  (Raise (VacuumLoginError [Lit "Authentication with the Eufy API was rejected."]), []).
Proof.
  intros H Hs Hj Hr. unfold _fetch_first_vacuum_sync.
  rewrite H, lift_Ok_bind, Hs, Hj. simpl negb. cbv iota. rewrite lift_Ok_bind.
  change (py_get "res_code" (VDict body)) with (Ok (dict_get "res_code" body)).
  rewrite lift_Ok_bind. unfold py_neb. by rewrite Hr.
Qed.

(** X8: An accepted login whose body lacks the profile or the token is not
    normalised: the [KeyError] of the subscript escapes. *)
Theorem login_body_incomplete (resp : response) (body : dict) :
  get_user_info cloud email password = Ok (Some resp) ->
  status_code resp = 200 ->
  json resp = Ok (VDict body) ->
  py_eqb (dict_get "res_code" body) (VInt 1) = true ->
  (dict_lookup "user_info" body = None -> _fetch_first_vacuum_sync cloud email password = (Raise (KeyError "user_info"), [])) /\
  (is_Some (dict_lookup "user_info" body) -> dict_lookup "access_token" body = None ->
     _fetch_first_vacuum_sync cloud email password = (Raise (KeyError "access_token"), [])).
Proof.
  intros H Hs Hj Hr. unfold _fetch_first_vacuum_sync.
  rewrite H, lift_Ok_bind, Hs, Hj. simpl negb. cbv iota. rewrite lift_Ok_bind.
  change (py_get "res_code" (VDict body)) with (Ok (dict_get "res_code" body)).
  rewrite lift_Ok_bind. unfold py_neb. rewrite Hr. simpl negb. cbv iota.
  split.
  - intros Hu. by rewrite (py_index_missing _ _ Hu).
  - intros [ui Hu] Ht.
    by rewrite (py_index_lookup _ _ _ Hu), lift_Ok_bind, (py_index_missing _ _ Ht).
Qed.

(** After a successful login the resolver goes on with the device list. *)
Lemma fetch_after_login (user_info token host uid : pyval) :
  logged_in cloud email password user_info token host uid ->
  _fetch_first_vacuum_sync cloud email password =
  (device_response ← lift (get_device_info cloud email password host uid token);
   device_data ← lift
     (json_or_raise "Unable to retrieve the device list from Eufy." device_response);
   settings_response ← lift (get_user_settings cloud email password host uid token);
   settings_data ← lift
     (json_or_raise "Unable to retrieve the user settings from Eufy." settings_response);
   rc ← lift (region_and_country cloud settings_data user_info);
   tz ← lift (py_get "timezone" user_info);
   username ← lift (py_str_add "eh-" uid);
   lift (TuyaAPISession cloud username rc.1 (py_or tz (VStr "UTC")) rc.2);;
   devices ← lift (py_get_default "devices" (VList []) device_data);
   items ← lift (py_iter devices);
   scan_devices (get_device cloud username rc.1 (py_or tz (VStr "UTC")) rc.2) items).
Proof.
  intros (resp & body & H & Hs & Hj & Hr & Hu & Ht & Hh & Hi).
  unfold _fetch_first_vacuum_sync.
  rewrite H, lift_Ok_bind, Hs, Hj. simpl negb. cbv iota. rewrite lift_Ok_bind.
  change (py_get "res_code" (VDict body)) with (Ok (dict_get "res_code" body)).
  rewrite lift_Ok_bind. unfold py_neb. rewrite Hr. simpl negb. cbv iota.
  rewrite (py_index_lookup _ _ _ Hu), lift_Ok_bind.
  rewrite (py_index_lookup _ _ _ Ht), lift_Ok_bind.
  rewrite Hh, Hi, !lift_Ok_bind.
  destruct (lift (get_device_info cloud email password host uid token)) as [[dr|e] tr];
    rewrite !bind_pair; [|reflexivity].
  destruct (lift (json_or_raise "Unable to retrieve the device list from Eufy." dr))
    as [[dd|e] tr']; rewrite !bind_pair; [|reflexivity].
  by rewrite !lift_Ok_bind.
Qed.

(** X9: A login that is accepted but followed by no response for the device list,
    or for the settings, ends with the matching [VacuumLoginError]. *)
Theorem missing_response_is_login_error (user_info token host uid : pyval) :
  logged_in cloud email password user_info token host uid ->
  (get_device_info cloud email password host uid token = Ok None ->
     _fetch_first_vacuum_sync cloud email password =
     (Raise (VacuumLoginError [Lit "Unable to retrieve the device list from Eufy."]), [])) /\
  (forall resp device_data,
     get_device_info cloud email password host uid token = Ok (Some resp) ->
     json resp = Ok device_data ->
     get_user_settings cloud email password host uid token = Ok None ->
     _fetch_first_vacuum_sync cloud email password =
     (Raise (VacuumLoginError [Lit "Unable to retrieve the user settings from Eufy."]), [])).
Proof.
  intros Hl. rewrite (fetch_after_login _ _ _ _ Hl). split.
  - intros ->. by rewrite lift_Ok_bind.
  - intros resp dd -> Hj ->. rewrite lift_Ok_bind. cbn [json_or_raise].
    rewrite Hj. by rewrite !lift_Ok_bind.
Qed.

(** X10: When the login, the device list, the settings and the region derivation
    succeed, the outcome of the resolver is that of the device loop, run with
    the Tuya client of the user ["eh-" + id], the derived region and country
    code, and the time zone of the profile or ["UTC"]. *)
Theorem resolver_runs_the_loop (user_info token host : pyval) (uid : string)
    (dresp sresp : response) (device_data settings_data region country_code : pyval)
    (ui : dict) (items : list pyval) :
  logged_in cloud email password user_info token host (VStr uid) ->
  user_info = VDict ui ->
  get_device_info cloud email password host (VStr uid) token = Ok (Some dresp) ->
  json dresp = Ok device_data ->
  get_user_settings cloud email password host (VStr uid) token = Ok (Some sresp) ->
  json sresp = Ok settings_data ->
  region_and_country cloud settings_data user_info = Ok (region, country_code) ->
  let timezone := py_or (dict_get "timezone" ui) (VStr "UTC") in
  let username := VStr (String.append "eh-" uid) in
  TuyaAPISession cloud username region timezone country_code = Ok tt ->
  (devices ← py_get_default "devices" (VList []) device_data; py_iter devices) = Ok items ->
  _fetch_first_vacuum_sync cloud email password = scan_devices (get_device cloud username region timezone country_code) items.
Proof.
  intros Hl -> Hd Hdj Hs Hsj Hrc timezone username Htuya Hitems.
  rewrite (fetch_after_login _ _ _ _ Hl).
  rewrite Hd, lift_Ok_bind. cbn [json_or_raise]. rewrite Hdj, lift_Ok_bind.
  rewrite Hs, lift_Ok_bind. cbn [json_or_raise]. rewrite Hsj, lift_Ok_bind.
  rewrite Hrc, lift_Ok_bind. cbn [fst snd].
  change (py_get "timezone" (VDict ui)) with (Ok (dict_get "timezone" ui)).
  rewrite lift_Ok_bind. simpl py_str_add. rewrite lift_Ok_bind.
  fold timezone. fold username. rewrite Htuya, lift_Ok_bind.
  destruct (py_get_default "devices" (VList []) device_data) as [devices|]; [|discriminate].
  rewrite result_Ok_bind in Hitems. by rewrite lift_Ok_bind, Hitems, lift_Ok_bind.
Qed.

End Login.

Lemma lift_bind_ok_inv {A B} (r : result A) (k : A -> traced B) (b : B) (tr : list event) :
  lift r ≫= k = (Ok b, tr) -> exists a, r = Ok a /\ k a = (Ok b, tr).
Proof.
  destruct r as [a|e]; [|discriminate]. rewrite lift_Ok_bind. eauto.
Qed.

Lemma descriptor_fields (item product key d : pyval) :
  descriptor item product key = Ok d ->
  exists id name model description mac,
    d = VDict [ ("id", id); ("name", name); ("model", model);
                ("description", description); ("mac", mac); ("access_token", key) ] /\
    py_index "id" item = Ok id /\
    py_get_default "product_code" (VStr "") product = Ok model /\
    truthy name = true.
Proof.
  unfold descriptor.
  destruct (py_index "id" item) as [id|]; [|discriminate]. rewrite result_Ok_bind.
  destruct (py_get "alias_name" item) as [alias|]; [|discriminate]. rewrite result_Ok_bind.
  assert (Hname : forall name,
            (if truthy alias then mret alias
             else n ← py_get "name" item; mret (py_or n (VStr "RoboVac"))) = Ok name ->
            truthy name = true).
  { intros name. destruct (truthy alias) eqn:Ha.
    - by intros [= <-].
    - destruct (py_get "name" item) as [n|]; [|discriminate]. intros [= <-].
      unfold py_or. by destruct (truthy n) eqn:Hn. }
  destruct (if truthy alias then _ else _) as [name|]; [|discriminate].
  rewrite result_Ok_bind.
  destruct (py_get_default "product_code" (VStr "") product) as [model|]; [|discriminate].
  rewrite result_Ok_bind.
  destruct (py_get_default "name" (VStr "Eufy RoboVac") item) as [descr|]; [|discriminate].
  rewrite result_Ok_bind.
  destruct (py_get_default "wifi" (VDict []) item) as [wifi|]; [|discriminate].
  rewrite result_Ok_bind.
  destruct (py_get "mac" wifi) as [mac|]; [|discriminate].
  rewrite result_Ok_bind. intros [= <-].
  exists id, name, model, descr, mac. repeat split. by apply Hname.
Qed.

(** X11: The descriptor of an accepted device has the six fields that [main]
    reads: the id of the device, a name that is never empty, the product code
    as model (empty when the product has none) and the local key. *)
Theorem descriptor_shape (item product key d : pyval) :
  descriptor item product key = Ok d ->
  exists id name model description mac,
    d = VDict [ ("id", id); ("name", name); ("model", model);
                ("description", description); ("mac", mac); ("access_token", key) ] /\
    py_index "id" item = Ok id /\
    py_get_default "product_code" (VStr "") product = Ok model /\
    truthy name = true.
Proof. apply descriptor_fields. Qed.

Section Loop.

Variable client_get_device : pyval -> result pyval.

Local Abbreviation try_device := (try_device client_get_device).
Local Abbreviation scan_devices := (scan_devices client_get_device).

(** One device leaves at most one record in the log, at DEBUG level, whether
    the body of the loop continues, returns or raises. *)
Lemma try_device_trace (item : pyval) :
  (try_device item).2 = [] \/
  exists fmt args, (try_device item).2 = [Logged DEBUG fmt args].
Proof.
  unfold Account.try_device.
  destruct (py_get_default "product" (VDict []) item) as [product|]; [|by left].
  rewrite lift_Ok_bind.
  destruct (py_get "appliance" product) as [appliance|]; [|by left].
  rewrite lift_Ok_bind.
  destruct (py_neb appliance (VStr "Cleaning")); [by left|].
  destruct (py_index "id" item ≫= λ id : pyval, client_get_device id) as [tuya|err].
  - autorewrite with traced.
    erewrite try_except_ok; [|reflexivity]. autorewrite with traced.
    destruct (py_get "localKey" tuya) as [key|]; [|by left].
    autorewrite with traced.
    destruct (truthy key); simpl negb; cbv iota.
    + destruct (descriptor item product key); autorewrite with traced; by left.
    + destruct (py_get "id" item); autorewrite with traced; [right|by left].
      by eexists _, _.
  - rewrite lift_Raise_bind.
    destruct (is_Exception err) eqn:Hex.
    + erewrite try_except_caught; [|reflexivity|exact Hex].
      destruct (py_get "id" item); autorewrite with traced; simpl.
      * right. by eexists _, _.
      * by left.
    + erewrite try_except_passed; [|reflexivity|exact Hex]. by left.
Qed.

Lemma scan_devices_trace (devices : list pyval) :
  Forall (fun e => is_debug_log e = true) (scan_devices devices).2 /\
  (length (scan_devices devices).2 <= length devices)%nat.
Proof.
  induction devices as [|item rest [IH1 IH2]]; [split; [constructor|done]|].
  rewrite scan_devices_cons.
  assert (Ht : Forall (fun e => is_debug_log e = true) (try_device item).2 /\
               (length (try_device item).2 <= 1)%nat).
  { destruct (try_device_trace item) as [->|(fmt & args & ->)]; split;
      repeat constructor. }
  destruct Ht as [Ht1 Ht2].
  destruct (try_device item) as [[[d|]|e] tr]; cbn [fst snd] in *.
  - split; [exact Ht1|]. simpl. lia.
  - split; [by apply Forall_app|]. rewrite length_app. simpl. lia.
  - split; [exact Ht1|]. simpl. lia.
Qed.

(** X12: The device loop only writes DEBUG records, at most one per device,
    whatever its outcome: it prints nothing and does nothing else. *)
Theorem device_loop_logs_debug_only (devices : list pyval) :
  Forall (fun e => is_debug_log e = true) (scan_devices devices).2 /\
  (length (scan_devices devices).2 <= length devices)%nat.
Proof. apply scan_devices_trace. Qed.

End Loop.

Section Whole.

Variable cloud : Cloud.
Variables email password : string.

Lemma fetch_ok_descriptor (vd : pyval) (tr : list event) :
  _fetch_first_vacuum_sync cloud email password = (Ok vd, tr) ->
  (exists id name model description mac key,
     vd = VDict [ ("id", id); ("name", name); ("model", model);
                  ("description", description); ("mac", mac); ("access_token", key) ] /\
     truthy name = true /\ truthy key = true) /\
  Forall (fun e => is_debug_log e = true) tr.
Proof.
  unfold _fetch_first_vacuum_sync. intros H.
  apply lift_bind_ok_inv in H as (user_response & _ & H).
  apply lift_bind_ok_inv in H as (user_data & _ & H).
  apply lift_bind_ok_inv in H as (res_code & _ & H).
  destruct (py_neb res_code (VInt 1)); [discriminate|].
  repeat (apply lift_bind_ok_inv in H as (? & _ & H)).
  split.
  - apply scan_devices_ok_inv in H as (pre & item & post & key & _ & _ & Hacc).
    destruct Hacc as (product & id & tuya & _ & _ & _ & _ & Hkey & Hd).
    apply descriptor_fields in Hd as (id' & name & model & descr & mac & -> & _ & _ & Hn).
    by exists id', name, model, descr, mac, key.
  - match type of H with
    | Account.scan_devices ?g ?l = _ =>
        pose proof (scan_devices_trace g l) as [Hd _]; by rewrite H in Hd
    end.
Qed.

Lemma lift_bind_trace {A B} (r : result A) (k : A -> traced B) (P : list event -> Prop) :
  P [] -> (forall a, P (k a).2) -> P (lift r ≫= k).2.
Proof.
  intros H0 Hk. destruct r as [a|e]; [|exact H0]. rewrite lift_Ok_bind. apply Hk.
Qed.

(** Whatever its outcome, the resolver only logs DEBUG records. *)
Lemma fetch_trace_is_debug :
  Forall (fun e => is_debug_log e = true)
    (_fetch_first_vacuum_sync cloud email password).2.
Proof.
  unfold _fetch_first_vacuum_sync.
  repeat (apply lift_bind_trace; [constructor|intros ?]).
  destruct (py_neb _ _); [constructor|].
  repeat (apply lift_bind_trace; [constructor|intros ?]).
  apply scan_devices_trace.
Qed.

(** X13: Whenever the resolver returns, what it returns is a complete descriptor
    with a non-empty name and a non-empty local key, and all it has logged
    are DEBUG records. *)
Theorem resolved_descriptor_is_complete (vd : pyval) (tr : list event) :
  _fetch_first_vacuum_sync cloud email password = (Ok vd, tr) ->
  (exists id name model description mac key,
     vd = VDict [ ("id", id); ("name", name); ("model", model);
                  ("description", description); ("mac", mac); ("access_token", key) ] /\
     truthy name = true /\ truthy key = true) /\
  Forall (fun e => is_debug_log e = true) tr.
Proof. apply fetch_ok_descriptor. Qed.

End Whole.

Section Settings.

Variable cloud : Cloud.

(** X14: When the settings lack [setting], [home_setting] or [tuya_home], the
    default [{}] applies and the region comes from the profile alone. *)
Theorem missing_settings_use_profile (d ui : dict) :
  (dict_lookup "setting" d = None \/
   exists s, dict_lookup "setting" d = Some (VDict s) /\
     (dict_lookup "home_setting" s = None \/
      exists h, dict_lookup "home_setting" s = Some (VDict h) /\
                dict_lookup "tuya_home" h = None)) ->
  region_and_country cloud (VDict d) (VDict ui) =
  (let phone := dict_get "phone_code" ui in
   let country := dict_get "country" ui in
   if truthy phone
   then region ← get_region_by_phone_code cloud phone; Ok (region, phone)
   else if truthy country
   then region ← get_region_by_country_code cloud country;
        country_code ← get_phone_code_by_country_code cloud country;
        Ok (region, country_code)
   else Ok (VStr "EU", VStr "44")).
Proof.
  intros H.
  assert (Hh : tuya_home_of (VDict d) = Ok (VDict [])).
  { unfold tuya_home_of.
    destruct H as [H|(s & Hs & [H|(h & Hh & H)])].
    - by rewrite (py_get_default_missing _ _ _ H).
    - rewrite (py_get_default_found _ _ _ _ Hs), result_Ok_bind.
      by rewrite (py_get_default_missing _ _ _ H).
    - rewrite (py_get_default_found _ _ _ _ Hs), result_Ok_bind.
      rewrite (py_get_default_found _ _ _ _ Hh), result_Ok_bind.
      by rewrite (py_get_default_missing _ _ _ H). }
  unfold region_and_country. rewrite Hh, result_Ok_bind.
  by apply derive_region_without_code.
Qed.

(** X15: The defaults do not cover a JSON [null]: a [null] in place of [setting]
    or [home_setting] raises [AttributeError], a [null] in place of
    [tuya_home] raises [TypeError]. *)
Theorem null_settings_raise (settings_data user_info : pyval) (d : dict) :
  settings_data = VDict d ->
  (dict_lookup "setting" d = Some VNone ->
     region_and_country cloud settings_data user_info = Raise AttributeError) /\
  (forall s, dict_lookup "setting" d = Some (VDict s) ->
     dict_lookup "home_setting" s = Some VNone ->
     region_and_country cloud settings_data user_info = Raise AttributeError) /\
  (forall s h, dict_lookup "setting" d = Some (VDict s) ->
     dict_lookup "home_setting" s = Some (VDict h) ->
     dict_lookup "tuya_home" h = Some VNone ->
     region_and_country cloud settings_data user_info = Raise TypeError).
Proof.
  intros ->. unfold region_and_country, tuya_home_of.
  split; [|split].
  - intros H. by rewrite (py_get_default_found _ _ _ _ H).
  - intros s Hs H. rewrite (py_get_default_found _ _ _ _ Hs), result_Ok_bind.
    by rewrite (py_get_default_found _ _ _ _ H).
  - intros s h Hs Hh H. rewrite (py_get_default_found _ _ _ _ Hs), result_Ok_bind.
    rewrite (py_get_default_found _ _ _ _ Hh), result_Ok_bind.
    by rewrite (py_get_default_found _ _ _ _ H).
Qed.

End Settings.

Import Examples Variants.

Lemma scenario_logged_in :
  logged_in scenario_cloud "me@example.org" "secret"
    (VDict scenario_profile) (VStr "token") (VStr "https://home-api") (VStr "u1").
Proof. eexists _, _. repeat split. Qed.

Lemma login_unreachable_witness :
  _fetch_first_vacuum_sync (with_login scenario_cloud (answer 503 VNone)) "me@example.org" "secret" =
  (Raise (VacuumLoginError
            [Lit "Failed to reach the Eufy API. Check your credentials or network."]), []).
Proof.
  apply (login_unreachable (with_login scenario_cloud (answer 503 VNone))).
  right. eexists. split; [reflexivity|]. simpl. lia.
Defined.

Lemma login_rejected_witness :
  _fetch_first_vacuum_sync
    (with_login scenario_cloud (answer 200 (VDict [("res_code", VInt 0)])))
    "me@example.org" "secret" =
  (Raise (VacuumLoginError [Lit "Authentication with the Eufy API was rejected."]), []).
Proof.
  eapply (login_rejected
            (with_login scenario_cloud (answer 200 (VDict [("res_code", VInt 0)]))));
    reflexivity.
Defined.

Lemma login_body_incomplete_witness :
  _fetch_first_vacuum_sync
    (with_login scenario_cloud (answer 200 (VDict [("res_code", VInt 1)])))
    "me@example.org" "secret" = (Raise (KeyError "user_info"), []).
Proof.
  eapply (proj1 (login_body_incomplete
                   (with_login scenario_cloud (answer 200 (VDict [("res_code", VInt 1)])))
                   "me@example.org" "secret" _ _ eq_refl eq_refl eq_refl eq_refl)).
  reflexivity.
Defined.

Lemma missing_response_is_login_error_witness :
  _fetch_first_vacuum_sync (with_device_list scenario_cloud (Ok None))
    "me@example.org" "secret" =
    (Raise (VacuumLoginError [Lit "Unable to retrieve the device list from Eufy."]), []) /\
  _fetch_first_vacuum_sync (with_settings scenario_cloud (Ok None))
    "me@example.org" "secret" =
    (Raise (VacuumLoginError [Lit "Unable to retrieve the user settings from Eufy."]), []).
Proof.
  split.
  - eapply (proj1 (missing_response_is_login_error
                     (with_device_list scenario_cloud (Ok None)) "me@example.org" "secret"
                     _ _ _ _ scenario_logged_in)).
    reflexivity.
  - eapply (proj2 (missing_response_is_login_error
                     (with_settings scenario_cloud (Ok None)) "me@example.org" "secret"
                     _ _ _ _ scenario_logged_in)); reflexivity.
Defined.

Lemma resolver_runs_the_loop_witness :
  _fetch_first_vacuum_sync scenario_cloud "me@example.org" "secret" =
  scan_devices
    (get_device scenario_cloud (VStr "eh-u1") (VStr "EU") (VStr "UTC") (VStr "49"))
    [camera; vacuum "dev1"; vacuum "dev2"].
Proof.
  eapply (resolver_runs_the_loop scenario_cloud "me@example.org" "secret"
            _ _ _ "u1" _ _ _ _ _ _ scenario_profile _ scenario_logged_in);
    reflexivity.
Defined.

Lemma resolved_descriptor_is_complete_witness :
  (exists id name model description mac key,
     example_descriptor =
       VDict [ ("id", id); ("name", name); ("model", model);
               ("description", description); ("mac", mac); ("access_token", key) ] /\
     truthy name = true /\ truthy key = true) /\
  Forall (fun e => is_debug_log e = true)
    [ Logged DEBUG "Skipping device %s due to Tuya API error: %s"
        [ArgVal (VStr "dev1"); ArgExn (OtherException [Lit "device lookup failed"])] ].
Proof.
  apply (resolved_descriptor_is_complete scenario_cloud "me@example.org" "secret").
  reflexivity.
Defined.

Lemma descriptor_shape_witness :
  exists id name model description mac,
    example_descriptor =
      VDict [ ("id", id); ("name", name); ("model", model);
              ("description", description); ("mac", mac); ("access_token", VStr "k2") ] /\
    py_index "id" (vacuum "dev2") = Ok id /\
    py_get_default "product_code" (VStr "")
      (VDict [("appliance", VStr "Cleaning"); ("product_code", VStr "T2118123")]) = Ok model /\
    truthy name = true.
Proof.
  apply (descriptor_shape (vacuum "dev2")
           (VDict [("appliance", VStr "Cleaning"); ("product_code", VStr "T2118123")])
           (VStr "k2") example_descriptor).
  reflexivity.
Defined.

Lemma missing_settings_use_profile_witness :
  region_and_country example_cloud (VDict [("setting", VDict [])])
    (VDict [("country", VStr "DE")]) = Ok (VStr "EU", VStr "49").
Proof.
  apply (missing_settings_use_profile example_cloud [("setting", VDict [])]
           [("country", VStr "DE")]).
  right. exists []. split; [reflexivity|]. by left.
Defined.

Lemma null_settings_raise_witness :
  region_and_country example_cloud
    (VDict [("setting", VDict [("home_setting", VDict [("tuya_home", VNone)])])])
    (VDict scenario_profile) = Raise TypeError.
Proof.
  eapply (proj2 (proj2 (null_settings_raise example_cloud _ (VDict scenario_profile) _
                          eq_refl))); reflexivity.
Defined.

End AccountExtras.

(** ** More on the LAN Discovery Listener *)

Module DiscoveryExtras.

Import Observations DiscoveryProofs.

Section Callback.

Variable device_id : pyval.

(** X16: The callback never raises: the guard on [done()] keeps [set_result] away
    from a future that already has a result or was cancelled by the
    time-out, and such a future is left as it is. *)
Theorem callback_never_raises (payload : dict) (fut : future) :
  (exists fut', (handle_discovery device_id payload fut).1 = Ok fut') /\
  (fut ≠ Pending -> handle_discovery device_id payload fut = (Ok fut, [])).
Proof.
  split.
  - destruct fut.
    + unfold handle_discovery.
      destruct (py_neb _ _); [by eexists|].
      destruct (truthy _); simpl; by eexists.
    + rewrite handle_discovery_done by done. by eexists.
    + rewrite handle_discovery_done by done. by eexists.
  - intros H. apply handle_discovery_done. by destruct fut.
Qed.

Section Wait.

Variable timeout : Q.

Lemma wait_for_done (incoming : list (Q * dict)) (ip : pyval) :
  wait_for device_id timeout incoming (Done ip) = (Ok ip, []).
Proof. by destruct incoming. Qed.

Lemma wait_for_ok_inv (incoming : list (Q * dict)) (ip : pyval) (tr : list event) :
  wait_for device_id timeout incoming Pending = (Ok ip, tr) ->
  exists t payload,
    In (t, payload) incoming /\ (t < timeout)%Q /\
    announces device_id payload = true /\ ip = dict_get "ip" payload.
Proof.
  revert tr. induction incoming as [|[t p] l IH]; intros tr; [discriminate|].
  rewrite wait_for_cons. destruct (Qlt_le_dec t timeout) as [Hlt|]; [|discriminate].
  destruct (announces device_id p) eqn:Ha.
  - rewrite (deliver_announcing device_id p Ha). cbn [fst snd].
    rewrite wait_for_done. intros [= <- _].
    exists t, p. split; [by left|]. done.
  - rewrite (deliver_not_announcing device_id p Pending Ha). cbn [fst snd].
    destruct (wait_for device_id timeout l Pending) as [r tr'] eqn:Hw.
    intros [= -> _].
    destruct (IH tr' eq_refl) as (t' & p' & Hin & H).
    exists t', p'. split; [by right|exact H].
Qed.

Lemma discover_start_raises (lan : Lan) (e : exn) :
  start_outcome lan = Raise e ->
  exists e', (discover_device_ip lan device_id timeout).1 = Raise e'.
Proof.
  intros Hs. unfold discover_device_ip. rewrite Hs.
  destruct (is_PortsNotAvailable e) eqn:Hp.
  - erewrite (try_except_caught is_PortsNotAvailable); [|reflexivity|exact Hp].
    by eexists.
  - erewrite (try_except_passed is_PortsNotAvailable); [|reflexivity|exact Hp].
    by eexists.
Qed.

(** X17: The address returned by the discovery is the non-empty [ip] of a
    broadcast that arrived before the deadline and whose [gwId] is the device
    looked for: the address of another device is never returned. *)
Theorem discovered_address_was_announced (lan : Lan) (ip : pyval) (tr : list event) :
  discover_device_ip lan device_id timeout = (Ok ip, tr) ->
  exists t payload,
    In (t, payload) (broadcasts lan) /\ (t < timeout)%Q /\
    py_eqb (dict_get "gwId" payload) device_id = true /\
    ip = dict_get "ip" payload /\ truthy ip = true.
Proof.
  intros H.
  destruct (start_outcome lan) as [[]|e] eqn:Hs.
  - rewrite (discover_started device_id timeout lan Hs) in H. cbv zeta in H.
    destruct (wait_for device_id timeout (broadcasts lan) Pending) as [[ip'|e] tr'] eqn:Hw;
      cbn [fst snd] in H.
    + injection H as -> _.
      apply wait_for_ok_inv in Hw as (t & p & Hin & Hlt & Ha & ->).
      unfold announces in Ha. apply andb_true_iff in Ha as [Hg Hip].
      by exists t, p.
    + by destruct (is_TimeoutError e).
  - pose proof (discover_start_raises lan e Hs) as [e' He]. by rewrite H in He.
Qed.

Lemma deliver_events (payload : dict) (fut : future) :
  Forall (fun e => is_discovery_event e = true) (deliver device_id payload fut).2.
Proof.
  destruct (announces device_id payload) eqn:Ha.
  - destruct fut.
    + rewrite (deliver_announcing device_id payload Ha). by repeat constructor.
    + rewrite deliver_done by done. constructor.
    + rewrite deliver_done by done. constructor.
  - rewrite (deliver_not_announcing device_id payload fut Ha). constructor.
Qed.

Lemma wait_for_events (incoming : list (Q * dict)) (fut : future) :
  Forall (fun e => is_discovery_event e = true)
    (wait_for device_id timeout incoming fut).2.
Proof.
  revert fut. induction incoming as [|[t p] l IH]; intros fut.
  - destruct fut; constructor.
  - destruct fut; [|constructor..].
    rewrite wait_for_cons. destruct (Qlt_le_dec t timeout); [|constructor].
    cbn [snd]. apply Forall_app. split; [apply deliver_events|apply IH].
Qed.

(** Whatever its outcome, the discovery only acts on the listener and on the
    future, and logs the INFO record of the callback. *)
Lemma discover_events (lan : Lan) :
  Forall (fun e => is_discovery_event e = true)
    (discover_device_ip lan device_id timeout).2.
Proof.
  destruct (start_outcome lan) as [[]|e] eqn:Hs.
  - rewrite (discover_started device_id timeout lan Hs). cbv zeta. cbn [snd].
    constructor; [reflexivity|]. apply Forall_app. split; [apply wait_for_events|].
    by repeat constructor.
  - unfold discover_device_ip. rewrite Hs.
    destruct (is_PortsNotAvailable e) eqn:Hp.
    + erewrite (try_except_caught is_PortsNotAvailable); [|reflexivity|exact Hp].
      by repeat constructor.
    + erewrite (try_except_passed is_PortsNotAvailable); [|reflexivity|exact Hp].
      by repeat constructor.
Qed.

(** X18: Only the "ports unavailable" failure of [start()] is handled: any other
    exception leaves the function as it is, and the listener is not closed. *)
Theorem other_startup_failure_skips_close (lan : Lan) (e : exn) :
  start_outcome lan = Raise e ->
  is_PortsNotAvailable e = false ->
  discover_device_ip lan device_id timeout = (Raise e, [ListenerStart]) /\
  occurrences is_close (discover_device_ip lan device_id timeout).2 = 0%nat.
Proof.
  intros Hs Hp.
  assert (H : discover_device_ip lan device_id timeout = (Raise e, [ListenerStart])).
  { unfold discover_device_ip. rewrite Hs.
    erewrite (try_except_passed is_PortsNotAvailable); [|reflexivity|exact Hp].
    reflexivity. }
  by rewrite H.
Qed.

End Wait.

End Callback.

Import Examples Variants.

Lemma callback_never_raises_witness :
  handle_discovery (VStr "dev2") (announcement "dev2" "192.168.1.42") Cancelled =
  (Ok Cancelled, []).
Proof.
  apply (proj2 (callback_never_raises (VStr "dev2") (announcement "dev2" "192.168.1.42")
                  Cancelled)).
  discriminate.
Defined.

Lemma discovered_address_was_announced_witness :
  exists t payload,
    In (t, payload) (broadcasts busy_lan) /\ (t < default_timeout)%Q /\
    py_eqb (dict_get "gwId" payload) (VStr "dev2") = true /\
    VStr "192.168.1.42" = dict_get "ip" payload /\ truthy (VStr "192.168.1.42") = true.
Proof.
  eapply (discovered_address_was_announced (VStr "dev2") default_timeout busy_lan).
  reflexivity.
Defined.

Lemma other_startup_failure_skips_close_witness :
  discover_device_ip broken_lan (VStr "dev2") default_timeout =
    (Raise (OtherException [Lit "no network interface"]), [ListenerStart]) /\
  occurrences is_close (discover_device_ip broken_lan (VStr "dev2") default_timeout).2 = 0%nat.
Proof.
  apply (other_startup_failure_skips_close (VStr "dev2") default_timeout broken_lan);
    reflexivity.
Defined.

End DiscoveryExtras.

(** ** More on the Main Orchestrator *)

Module OrchestratorExtras.

Import Reporter Orchestrator Observations AccountProofs AccountExtras ReporterExtras
  DiscoveryProofs OrchestratorProofs.

Lemma dict_set_lookup (key k : string) (v : pyval) (d : dict) :
  dict_lookup k (dict_set key v d) =
  if String.eqb key k then Some v else dict_lookup k d.
Proof.
  induction d as [|[k0 w] d IH]; simpl.
  - by destruct (String.eqb key k).
  - destruct (String.eqb k0 key) eqn:E0; simpl.
    + apply String.eqb_eq in E0. subst k0.
      by destruct (String.eqb key k).
    + destruct (String.eqb k0 k) eqn:E1; [|exact IH].
      apply String.eqb_eq in E1. subst k0. by rewrite String.eqb_sym, E0.
Qed.

(** X19: [vacuum_details["ip_address"] = ip_address] stores the address and keeps
    every other field of the descriptor. *)
Theorem setitem_then_index (key : string) (v vacuum_details vacuum_details' : pyval) :
  py_setitem key v vacuum_details = Ok vacuum_details' ->
  py_index key vacuum_details' = Ok v /\
  (forall k, k ≠ key -> py_index k vacuum_details' = py_index k vacuum_details).
Proof.
  destruct vacuum_details as [ | | | | |d]; try discriminate. intros [= <-].
  unfold py_index. split.
  - by rewrite dict_set_lookup, String.eqb_refl.
  - intros k Hk. rewrite dict_set_lookup.
    destruct (String.eqb key k) eqn:E; [|done].
    apply String.eqb_eq in E. by subst.
Qed.

Lemma substring_prefix (s : string) (n : nat) :
  String.prefix (String.substring 0 n s) s = true /\
  String.length (String.substring 0 n s) = Nat.min n (String.length s).
Proof.
  revert n. induction s as [|c s IH]; intros [|n]; simpl; try done.
  destruct (IH n) as [H1 H2]. rewrite H2. split; [|done].
  destruct (Ascii.ascii_dec c c); [exact H1|done].
Qed.

(** X20: The model code is a prefix of the product code, of five characters when
    the product code has that many and of all of them otherwise. *)
Theorem model_code_is_prefix (d : dict) (product_code : string) :
  dict_lookup "model" d = Some (VStr product_code) ->
  exists code,
    model_code_of (VDict d) = Ok (VStr code) /\
    String.prefix code product_code = true /\
    String.length code = Nat.min 5 (String.length product_code).
Proof.
  intros H. exists (String.substring 0 5 product_code).
  split; [by apply model_code_of_string|]. apply substring_prefix.
Qed.

Lemma occurrences_cons (p : event -> bool) (e : event) (t : list event) :
  occurrences p (e :: t) = ((if p e then 1 else 0) + occurrences p t)%nat.
Proof. unfold occurrences. simpl. by destruct (p e). Qed.

(** A trace made of events of one kind has no event of a disjoint kind. *)
Lemma occurrences_outside (q p : event -> bool) (t : list event) :
  Forall (fun e => q e = true) t ->
  (forall e, q e = true -> p e = false) ->
  occurrences p t = 0%nat.
Proof.
  intros Ht Hp. induction Ht as [|e t He _ IH]; [reflexivity|].
  by rewrite occurrences_cons, (Hp e He), IH.
Qed.

Section World.

Variable w : World.

(** X21: Without an email or without a password [main] stops at once with
    [SystemExit]: nothing is logged and no service is contacted; the exit is
    not turned into the status 1 of a login error. *)
Theorem missing_credentials_exit (H : typed_email w = "" \/ typed_password w = "") :
  main w = (Raise (SystemExit [Lit "Both email and password are required."]), []) /\
  forall sigint,
    script sigint w =
    (Raise (SystemExit [Lit "Both email and password are required."]), []).
Proof.
  assert (Hm : main w =
               (Raise (SystemExit [Lit "Both email and password are required."]), [])).
  { unfold main. destruct H as [-> | ->]; [reflexivity|].
    by rewrite orb_true_r. }
  split; [exact Hm|]. intros sigint. unfold script, asyncio_run. by rewrite Hm.
Qed.

(** X22: The [__main__] block: a [VacuumLoginError] of [main] is logged once, at
    ERROR level, and becomes the exit status 1.  When [main] ends with the
    [CancelledError] of the operator's interrupt, [asyncio.run] raises
    [KeyboardInterrupt] instead and nothing is logged.  Any other outcome of
    [main], a normal return or another exception, is left as it is. *)
Theorem script_exit_status (sigint : bool) :
  (forall msg, (main w).1 = Raise (VacuumLoginError msg) ->
     script sigint w =
     (Raise (SystemExit [Interp (VInt 1)]),
      (main w).2 ++ [Logged ERROR "%s" [ArgExn (VacuumLoginError msg)]])) /\
  ((main w).1 = Raise CancelledError ->
     script true w = (Raise KeyboardInterrupt, (main w).2) /\
     script false w = main w) /\
  ((forall msg, (main w).1 ≠ Raise (VacuumLoginError msg)) ->
   (main w).1 ≠ Raise CancelledError ->
   script sigint w = main w).
Proof.
  unfold script, asyncio_run. split; [|split].
  - intros msg H. rewrite H.
    erewrite try_except_caught; [|exact H|reflexivity]. reflexivity.
  - intros H. rewrite H. split.
    + by erewrite try_except_passed; [|reflexivity|reflexivity].
    + by erewrite try_except_passed; [|exact H|reflexivity].
  - intros H Hc. destruct (main w) as [[[]|e] tr] eqn:Hm; cbn [fst] in *.
    + by erewrite try_except_ok.
    + destruct e; try (by erewrite try_except_passed; [|reflexivity|reflexivity]).
      * by destruct (H msg).
      * by destruct Hc.
Qed.

Section Resolved.

Hypothesis Hemail : typed_email w ≠ "".
Hypothesis Hpassword : typed_password w ≠ "".

Lemma main_started :
  main w =
  (emit (Logged INFO "Logging in to the Eufy and Tuya services..." []);;
   vacuum_details ← fetch_first_vacuum (cloud w) (typed_email w) (typed_password w);
   name ← lift (py_index "name" vacuum_details);
   model ← lift (py_index "model" vacuum_details);
   emit (Logged INFO "Found RoboVac '%s' (model %s)" [ArgVal name; ArgVal model]);;
   emit (Logged INFO "Waiting for the vacuum to broadcast its IP address..." []);;
   device_id ← lift (py_index "id" vacuum_details);
   ip_address ← discover_device_ip (lan w) device_id default_timeout;
   vacuum_details' ← lift (py_setitem "ip_address" ip_address vacuum_details);
   main_session (session w) vacuum_details').
Proof.
  unfold main. apply String.eqb_neq in Hemail, Hpassword.
  by rewrite Hemail, Hpassword.
Qed.

(** X23: When the account cannot be resolved, [main] ends with the exception of
    the resolver: the listener is not started and no session is built. *)
Theorem resolver_failure_stops_main (e : exn) (tr : list event) :
  fetch_first_vacuum (cloud w) (typed_email w) (typed_password w) = (Raise e, tr) ->
  main w = (Raise e, Logged INFO "Logging in to the Eufy and Tuya services..." [] :: tr) /\
  occurrences is_start (main w).2 = 0%nat /\
  occurrences is_init (main w).2 = 0%nat.
Proof.
  intros Hf.
  assert (Hm : main w =
               (Raise e, Logged INFO "Logging in to the Eufy and Tuya services..." [] :: tr)).
  { rewrite main_started, emit_bind, Hf. reflexivity. }
  split; [exact Hm|]. rewrite Hm. cbn [snd].
  assert (Hd : Forall (fun ev => is_debug_log ev = true) tr).
  { pose proof (fetch_trace_is_debug (cloud w) (typed_email w) (typed_password w)) as Hd.
    unfold fetch_first_vacuum in Hf. by rewrite Hf in Hd. }
  rewrite !occurrences_cons.
  rewrite (occurrences_outside is_debug_log is_start tr Hd) by (by intros []).
  by rewrite (occurrences_outside is_debug_log is_init tr Hd) by (by intros []).
Qed.

(** X24: When the address cannot be discovered, [main] ends with the exception
    of the discovery and no session is built. *)
Theorem discovery_failure_stops_main (vd : pyval) (tr1 : list event) :
  fetch_first_vacuum (cloud w) (typed_email w) (typed_password w) = (Ok vd, tr1) ->
  exists device_id name model,
    py_index "id" vd = Ok device_id /\
    forall e tr2,
      discover_device_ip (lan w) device_id default_timeout = (Raise e, tr2) ->
      main w =
      (Raise e,
       Logged INFO "Logging in to the Eufy and Tuya services..." [] :: tr1 ++
       [ Logged INFO "Found RoboVac '%s' (model %s)" [ArgVal name; ArgVal model];
         Logged INFO "Waiting for the vacuum to broadcast its IP address..." [] ] ++ tr2) /\
      occurrences is_init (main w).2 = 0%nat.
Proof.
  intros Hf.
  destruct (fetch_ok_descriptor _ _ _ _ _ Hf)
    as [(id & name & model & descr & mac & key & -> & _) Hd].
  exists id, name, model. split; [reflexivity|]. intros e tr2 Hdisc.
  assert (Hm : main w =
    (Raise e,
     Logged INFO "Logging in to the Eufy and Tuya services..." [] :: tr1 ++
     [ Logged INFO "Found RoboVac '%s' (model %s)" [ArgVal name; ArgVal model];
       Logged INFO "Waiting for the vacuum to broadcast its IP address..." [] ] ++ tr2)).
  { rewrite main_started, emit_bind, Hf, bind_pair. cbn [fst snd].
    change (py_index "name" (VDict _)) with (Ok name).
    rewrite lift_Ok_bind.
    change (py_index "model" (VDict _)) with (Ok model).
    rewrite lift_Ok_bind, !emit_bind. cbn [fst snd].
    change (py_index "id" (VDict _)) with (Ok id).
    rewrite lift_Ok_bind, Hdisc. reflexivity. }
  split; [exact Hm|]. rewrite Hm. cbn [snd].
  pose proof (DiscoveryExtras.discover_events id default_timeout (lan w)) as He.
  rewrite Hdisc in He. cbn [snd] in He.
  rewrite occurrences_cons, !occurrences_app, !occurrences_cons.
  rewrite (occurrences_outside is_debug_log is_init tr1 Hd) by (by intros []).
  rewrite (occurrences_outside is_discovery_event is_init tr2 He) by (by intros []).
  reflexivity.
Qed.

(** X25: When the account and the address are resolved, [main] goes on with the
    session part on the descriptor of the resolver, to which the discovered
    address has been added: the session is built for that address, with the
    id and the local key of the descriptor. *)
Theorem session_gets_discovered_address (vd : pyval) (tr1 : list event) :
  fetch_first_vacuum (cloud w) (typed_email w) (typed_password w) = (Ok vd, tr1) ->
  exists device_id name model description mac key,
    vd = VDict [ ("id", device_id); ("name", name); ("model", model);
                 ("description", description); ("mac", mac); ("access_token", key) ] /\
    forall ip tr2,
      discover_device_ip (lan w) device_id default_timeout = (Ok ip, tr2) ->
      let vd' := VDict [ ("id", device_id); ("name", name); ("model", model);
                         ("description", description); ("mac", mac);
                         ("access_token", key); ("ip_address", ip) ] in
      main w =
      ((main_session (session w) vd').1,
       Logged INFO "Logging in to the Eufy and Tuya services..." [] :: tr1 ++
       [ Logged INFO "Found RoboVac '%s' (model %s)" [ArgVal name; ArgVal model];
         Logged INFO "Waiting for the vacuum to broadcast its IP address..." [] ] ++
       tr2 ++ (main_session (session w) vd').2) /\
      py_index "ip_address" vd' = Ok ip /\
      py_index "id" vd' = Ok device_id /\
      py_index "access_token" vd' = Ok key.
Proof.
  intros Hf.
  destruct (fetch_ok_descriptor _ _ _ _ _ Hf)
    as [(id & name & model & descr & mac & key & -> & _) _].
  exists id, name, model, descr, mac, key. split; [reflexivity|].
  intros ip tr2 Hdisc vd'. split; [|by repeat split].
  by apply (main_resolved w _ name model id ip vd' tr1 tr2 Hemail Hpassword Hf).
Qed.

End Resolved.

End World.

Import Examples Variants.

Lemma setitem_then_index_witness :
  py_index "ip_address" (VDict (resolved "T2118123")) = Ok (VStr "192.168.1.42") /\
  (forall k, k ≠ "ip_address" ->
     py_index k (VDict (resolved "T2118123")) = py_index k example_descriptor).
Proof.
  apply (setitem_then_index "ip_address" (VStr "192.168.1.42") example_descriptor
           (VDict (resolved "T2118123"))).
  reflexivity.
Defined.

Lemma model_code_is_prefix_witness :
  exists code,
    model_code_of (VDict (resolved "T2118123")) = Ok (VStr code) /\
    String.prefix code "T2118123" = true /\
    String.length code = Nat.min 5 (String.length "T2118123").
Proof.
  apply (model_code_is_prefix (resolved "T2118123") "T2118123"). reflexivity.
Defined.

Lemma missing_credentials_exit_witness :
  main (with_credentials scenario "me@example.org" "") =
    (Raise (SystemExit [Lit "Both email and password are required."]), []) /\
  forall sigint,
    script sigint (with_credentials scenario "me@example.org" "") =
    (Raise (SystemExit [Lit "Both email and password are required."]), []).
Proof.
  apply (missing_credentials_exit (with_credentials scenario "me@example.org" "")).
  right. reflexivity.
Defined.

Lemma script_exit_status_witness :
  script true (with_lan scenario late_lan) =
    (Raise (SystemExit [Interp (VInt 1)]),
     (main (with_lan scenario late_lan)).2 ++ [Logged ERROR "%s" [ArgExn timed_out]]) /\
  script true (with_session scenario (interrupted_by example_session CancelledError)) =
    (Raise KeyboardInterrupt,
     (main (with_session scenario (interrupted_by example_session CancelledError))).2).
Proof.
  split.
  - apply (proj1 (script_exit_status (with_lan scenario late_lan) true)). reflexivity.
  - apply (proj1 (proj2 (script_exit_status
                           (with_session scenario
                              (interrupted_by example_session CancelledError)) true))).
    reflexivity.
Defined.

Lemma resolver_failure_stops_main_witness :
  let w := with_cloud scenario (with_login scenario_cloud (answer 503 VNone)) in
  main w =
    (Raise (VacuumLoginError
              [Lit "Failed to reach the Eufy API. Check your credentials or network."]),
     [Logged INFO "Logging in to the Eufy and Tuya services..." []]) /\
  occurrences is_start (main w).2 = 0%nat /\
  occurrences is_init (main w).2 = 0%nat.
Proof.
  intros w. apply (resolver_failure_stops_main w); [discriminate|discriminate|reflexivity].
Defined.

Lemma discovery_failure_stops_main_witness :
  let w := with_lan scenario late_lan in
  exists device_id name model,
    py_index "id" example_descriptor = Ok device_id /\
    forall e tr2,
      discover_device_ip (lan w) device_id default_timeout = (Raise e, tr2) ->
      main w =
      (Raise e,
       Logged INFO "Logging in to the Eufy and Tuya services..." [] ::
       [ Logged DEBUG "Skipping device %s due to Tuya API error: %s"
           [ArgVal (VStr "dev1"); ArgExn (OtherException [Lit "device lookup failed"])] ] ++
       [ Logged INFO "Found RoboVac '%s' (model %s)" [ArgVal name; ArgVal model];
         Logged INFO "Waiting for the vacuum to broadcast its IP address..." [] ] ++ tr2) /\
      occurrences is_init (main w).2 = 0%nat.
Proof.
  intros w. apply (discovery_failure_stops_main w); [discriminate|discriminate|reflexivity].
Defined.

Lemma session_gets_discovered_address_witness :
  exists device_id name model description mac key,
    example_descriptor =
      VDict [ ("id", device_id); ("name", name); ("model", model);
              ("description", description); ("mac", mac); ("access_token", key) ] /\
    forall ip tr2,
      discover_device_ip (lan scenario) device_id default_timeout = (Ok ip, tr2) ->
      let vd' := VDict [ ("id", device_id); ("name", name); ("model", model);
                         ("description", description); ("mac", mac);
                         ("access_token", key); ("ip_address", ip) ] in
      main scenario =
      ((main_session (session scenario) vd').1,
       Logged INFO "Logging in to the Eufy and Tuya services..." [] ::
       [ Logged DEBUG "Skipping device %s due to Tuya API error: %s"
           [ArgVal (VStr "dev1"); ArgExn (OtherException [Lit "device lookup failed"])] ] ++
       [ Logged INFO "Found RoboVac '%s' (model %s)" [ArgVal name; ArgVal model];
         Logged INFO "Waiting for the vacuum to broadcast its IP address..." [] ] ++
       tr2 ++ (main_session (session scenario) vd').2) /\
      py_index "ip_address" vd' = Ok ip /\
      py_index "id" vd' = Ok device_id /\
      py_index "access_token" vd' = Ok key.
Proof.
  apply (session_gets_discovered_address scenario); [discriminate|discriminate|reflexivity].
Defined.

End OrchestratorExtras.

(** ** The session part of the orchestrator *)

Module SessionExtras.

Import Reporter Orchestrator Observations AccountProofs AccountExtras ReporterExtras
  DiscoveryProofs OrchestratorProofs OrchestratorExtras.

Lemma printed_is_session_event (t : list event) :
  Forall (fun e => is_printed e = true) t ->
  Forall (fun e => is_session_event e = true) t.
Proof. intros H. eapply Forall_impl; [exact H|]. by intros []. Qed.

Lemma push_prints (p : string * option state) (previous : state) :
  Forall (fun e => is_printed e = true) (push p previous).2.
Proof.
  unfold push. cbn [snd]. apply Forall_forall.
  intros e [o [-> _]]%list_elem_of_fmap. reflexivity.
Qed.

Section Session.

Variable s : Session.
Variables vacuum_details model_code device_id host local_key : pyval.

(** The descriptor is complete and its model is supported. *)
Hypothesis Hmodel : model_code_of vacuum_details = Ok model_code.
Hypothesis Htruthy : truthy model_code = true.
Hypothesis Hsupported : existsb (py_eqb model_code) (supported_models s) = true.
Hypothesis Hid : py_index "id" vacuum_details = Ok device_id.
Hypothesis Hhost : py_index "ip_address" vacuum_details = Ok host.
Hypothesis Hkey : py_index "access_token" vacuum_details = Ok local_key.

Local Abbreviation notice :=
  (Printed (PrintLine (newline +:+ "Disconnecting from the vacuum..."))).

(** The run of a constructed session: the guarded block of lines 225-234,
    the handler of the interrupt and the unconditional teardown. *)
Lemma main_session_run :
  exists body : traced unit,
    main_session s vacuum_details =
    ((try_finally (try_except is_KeyboardInterrupt body (fun _ => emit notice))
        (emit SessionDisconnect;; lift (disconnect_outcome s))).1,
     SessionInit model_code device_id host local_key ::
     (try_finally (try_except is_KeyboardInterrupt body (fun _ => emit notice))
        (emit SessionDisconnect;; lift (disconnect_outcome s))).2) /\
    body.1 =
      match outcome (on_connect s), outcome (on_get s) with
      | Raise e, _ => Raise e
      | Ok _, Raise e => Raise e
      | Ok _, Ok _ => Raise (interruption s)
      end /\
    (exists rest, body.2 = SessionConnect :: rest /\
                  Forall (fun e => is_session_event e = true) rest /\
                  (forall e, outcome (on_connect s) = Raise e ->
                     occurrences is_get rest = 0%nat)).
Proof.
  eexists. split; [|split].
  - unfold main_session. rewrite Hmodel, lift_Ok_bind, Htruthy. simpl negb. cbv iota.
    rewrite Hid, Hhost, Hkey. autorewrite with traced. cbn [fst snd].
    unfold RoboVac_init. rewrite Hsupported.
    erewrite (try_except_ok is_ModelNotSupported); [|reflexivity].
    rewrite bind_pair. cbn [fst snd]. reflexivity.
  - unfold run_step.
    destruct (outcome (on_connect s)) as [[]|e1]; [|reflexivity].
    rewrite bind_pair. cbn [fst].
    destruct (outcome (on_get s)) as [[]|e2]; reflexivity.
  - unfold run_step.
    pose proof (run_pushes_prints (pushes (on_connect s)) ∅) as H1.
    set (p1 := run_pushes (pushes (on_connect s)) ∅) in *.
    destruct (outcome (on_connect s)) as [[]|e1].
    + rewrite bind_pair. cbn [fst snd].
      pose proof (run_pushes_prints (pushes (on_get s)) p1.1) as H2.
      set (p2 := run_pushes (pushes (on_get s)) p1.1) in *.
      destruct (outcome (on_get s)) as [[]|e2].
      * rewrite bind_pair. cbn [fst snd]. rewrite bind_pair. cbn [fst snd].
        rewrite emit_bind. cbn [fst snd].
        eexists. split; [reflexivity|]. split; [|discriminate].
        apply Forall_app. split; [by apply printed_is_session_event|].
        constructor; [reflexivity|].
        apply Forall_app. split; [by apply printed_is_session_event|].
        apply Forall_app. split.
        { apply printed_is_session_event, push_prints. }
        constructor; [reflexivity|].
        apply printed_is_session_event, run_pushes_prints.
      * cbn [fst snd]. eexists. split; [reflexivity|]. split; [|discriminate].
        apply Forall_app. split; [by apply printed_is_session_event|].
        constructor; [reflexivity|]. by apply printed_is_session_event.
    + cbn [fst snd]. eexists. split; [reflexivity|]. split.
      * by apply printed_is_session_event.
      * intros _ _. apply (occurrences_outside is_printed); [exact H1|]. by intros [].
Qed.

Lemma teardown (body : traced unit) :
  try_finally body (emit SessionDisconnect;; lift (disconnect_outcome s)) =
  (match disconnect_outcome s with Ok _ => body.1 | Raise e => Raise e end,
   body.2 ++ [SessionDisconnect]).
Proof.
  unfold try_finally. rewrite emit_bind. cbn [fst snd lift].
  by destruct (disconnect_outcome s).
Qed.

Lemma guarded (body : traced unit) :
  (try_except is_KeyboardInterrupt body (fun _ => emit notice)).2 = body.2 \/
  (try_except is_KeyboardInterrupt body (fun _ => emit notice)).2 = body.2 ++ [notice].
Proof.
  unfold try_except. destruct body.1 as [|e]; [by left|].
  destruct (is_KeyboardInterrupt e); [by right|by left].
Qed.

(** X26: Once the session is constructed, [async_disconnect] is called exactly
    once and last, whatever [async_connect], [async_get], the device and the
    operator do; the session is constructed and connected once, and in
    between there is nothing but the state query and the output of the
    callback. *)
Theorem session_is_torn_down_once :
  (exists middle,
     (main_session s vacuum_details).2 =
     SessionInit model_code device_id host local_key :: SessionConnect ::
     middle ++ [SessionDisconnect] /\
     Forall (fun e => is_session_event e = true) middle) /\
  occurrences is_disconnect (main_session s vacuum_details).2 = 1%nat.
Proof.
  destruct main_session_run as (body & -> & _ & rest & Hb & Hrest & _).
  rewrite teardown. cbn [snd].
  assert (Hm : exists middle,
            (try_except is_KeyboardInterrupt body (fun _ => emit notice)).2 =
            SessionConnect :: middle /\
            Forall (fun e => is_session_event e = true) middle).
  { destruct (guarded body) as [->| ->]; rewrite Hb.
    - by exists rest.
    - exists (rest ++ [notice]). split; [reflexivity|].
      apply Forall_app. split; [exact Hrest|]. by repeat constructor. }
  destruct Hm as (middle & -> & Hmiddle). split.
  - by exists middle.
  - rewrite !occurrences_cons. simpl app. rewrite occurrences_cons, occurrences_app.
    rewrite (occurrences_outside is_session_event is_disconnect middle Hmiddle)
      by (by intros []).
    reflexivity.
Qed.

(** X27: When [async_connect] fails, the state is never queried and the failure
    is the outcome of [main], after the teardown. *)
Theorem connect_failure_skips_query (e : exn) :
  outcome (on_connect s) = Raise e ->
  is_KeyboardInterrupt e = false ->
  disconnect_outcome s = Ok tt ->
  (main_session s vacuum_details).1 = Raise e /\
  occurrences is_get (main_session s vacuum_details).2 = 0%nat.
Proof.
  intros Hc Hk Hd.
  destruct main_session_run as (body & -> & Hb1 & rest & Hb2 & _ & Hget).
  rewrite Hc in Hb1. rewrite teardown, Hd. cbn [fst snd].
  erewrite try_except_passed; [|exact Hb1|exact Hk].
  split; [exact Hb1|].
  rewrite Hb2. simpl app. rewrite !occurrences_cons, occurrences_app, (Hget e Hc).
  reflexivity.
Qed.

(** X28: The idle loop is left by an exception only.  [KeyboardInterrupt] is
    answered with the notice and a normal return; any other exception goes
    through, without the notice. *)
Theorem interrupt_is_a_clean_exit :
  outcome (on_connect s) = Ok tt ->
  outcome (on_get s) = Ok tt ->
  disconnect_outcome s = Ok tt ->
  (interruption s = KeyboardInterrupt ->
     (main_session s vacuum_details).1 = Ok tt /\
     exists front, (main_session s vacuum_details).2 =
                   front ++ [notice; SessionDisconnect]) /\
  (is_KeyboardInterrupt (interruption s) = false ->
     (main_session s vacuum_details).1 = Raise (interruption s)).
Proof.
  intros Hc Hg Hd.
  destruct main_session_run as (body & -> & Hb1 & rest & Hb2 & Hrest & _).
  rewrite Hc, Hg in Hb1. rewrite teardown, Hd. cbn [fst snd]. split.
  - intros Hi. rewrite Hi in Hb1.
    erewrite try_except_caught; [|exact Hb1|reflexivity]. cbn [fst snd emit].
    split; [reflexivity|].
    exists (SessionInit model_code device_id host local_key :: body.2).
    by rewrite <- !app_assoc.
  - intros Hi. erewrite try_except_passed; [|exact Hb1|exact Hi]. exact Hb1.
Qed.

(** X29: A failure of [async_disconnect] replaces the outcome of the session. *)
Theorem teardown_failure_masks_outcome (e : exn) :
  disconnect_outcome s = Raise e ->
  (main_session s vacuum_details).1 = Raise e.
Proof.
  intros Hd. destruct main_session_run as (body & -> & _).
  by rewrite teardown, Hd.
Qed.

End Session.

Import Examples Variants.

Lemma session_is_torn_down_once_witness :
  (exists middle,
     (main_session example_session (VDict (resolved "T2118123"))).2 =
     SessionInit (VStr "T2118") (VStr "dev2") (VStr "192.168.1.42") (VStr "k2") ::
     SessionConnect :: middle ++ [SessionDisconnect] /\
     Forall (fun e => is_session_event e = true) middle) /\
  occurrences is_disconnect (main_session example_session (VDict (resolved "T2118123"))).2
    = 1%nat.
Proof.
  apply (session_is_torn_down_once example_session (VDict (resolved "T2118123"))
           (VStr "T2118") (VStr "dev2") (VStr "192.168.1.42") (VStr "k2"));
    reflexivity.
Defined.

Lemma connect_failure_skips_query_witness :
  let s := failing_connect example_session (OtherException [Lit "connection refused"]) in
  (main_session s (VDict (resolved "T2118123"))).1 =
    Raise (OtherException [Lit "connection refused"]) /\
  occurrences is_get (main_session s (VDict (resolved "T2118123"))).2 = 0%nat.
Proof.
  intros s.
  apply (connect_failure_skips_query s (VDict (resolved "T2118123"))
           (VStr "T2118") (VStr "dev2") (VStr "192.168.1.42") (VStr "k2"));
    reflexivity.
Defined.

Lemma interrupt_is_a_clean_exit_witness :
  (main_session example_session (VDict (resolved "T2118123"))).1 = Ok tt /\
  (main_session (interrupted_by example_session CancelledError)
     (VDict (resolved "T2118123"))).1 = Raise CancelledError.
Proof.
  split.
  - apply (interrupt_is_a_clean_exit example_session (VDict (resolved "T2118123"))
             (VStr "T2118") (VStr "dev2") (VStr "192.168.1.42") (VStr "k2"));
      reflexivity.
  - apply (interrupt_is_a_clean_exit (interrupted_by example_session CancelledError)
             (VDict (resolved "T2118123"))
             (VStr "T2118") (VStr "dev2") (VStr "192.168.1.42") (VStr "k2"));
      reflexivity.
Defined.

Lemma teardown_failure_masks_outcome_witness :
  (main_session
     (failing_disconnect example_session (OtherException [Lit "socket closed"]))
     (VDict (resolved "T2118123"))).1 = Raise (OtherException [Lit "socket closed"]).
Proof.
  apply (teardown_failure_masks_outcome
           (failing_disconnect example_session (OtherException [Lit "socket closed"]))
           (VDict (resolved "T2118123"))
           (VStr "T2118") (VStr "dev2") (VStr "192.168.1.42") (VStr "k2"));
    reflexivity.
Defined.

End SessionExtras.

(** ** The feature flags *)

Module FeaturesProofs.

Import Features.

Lemma shift_nonneg (f : VacuumEntityFeature) (n : Z) : shift f = Some n -> 0 <= n.
Proof. destruct f; intros [= <-]; lia. Qed.

Lemma shift_injective (f g : VacuumEntityFeature) (n : Z) :
  shift f = Some n -> shift g = Some n -> f = g.
Proof. destruct f, g; simpl; intros H1 H2; congruence. Qed.

Lemma testbit_value (g : VacuumEntityFeature) (n : Z) :
  0 <= n -> Z.testbit (value g) n = bool_decide (shift g = Some n).
Proof.
  intros Hn. unfold value. destruct (shift g) as [m|] eqn:Hg.
  - pose proof (shift_nonneg g m Hg). rewrite Z.shiftl_1_l, Z.pow2_bits_eqb by done.
    destruct (Z.eqb_spec m n) as [->|Hne].
    + by rewrite bool_decide_eq_true_2.
    + rewrite bool_decide_eq_false_2; [done|]. by intros [= ?].
  - rewrite Z.bits_0. by rewrite bool_decide_eq_false_2.
Qed.

Lemma testbit_union (fs : list VacuumEntityFeature) (n : Z) :
  0 <= n ->
  Z.testbit (union fs) n = existsb (fun g => bool_decide (shift g = Some n)) fs.
Proof.
  intros Hn. induction fs as [|g fs IH]; simpl.
  - apply Z.bits_0.
  - by rewrite Z.lor_spec, IH, testbit_value.
Qed.

Lemma land_bit (flags n : Z) :
  0 <= n ->
  Z.land flags (Z.shiftl 1 n) = Z.shiftl 1 n <-> Z.testbit flags n = true.
Proof.
  intros Hn. rewrite Z.shiftl_1_l. split.
  - intros H. apply (f_equal (fun z => Z.testbit z n)) in H.
    rewrite Z.land_spec, Z.pow2_bits_true in H by done. by rewrite andb_true_r in H.
  - intros H. apply Z.bits_inj'. intros m Hm.
    rewrite Z.land_spec, Z.pow2_bits_eqb by done.
    destruct (Z.eqb_spec n m) as [<-|_]; [by rewrite H|by rewrite andb_false_r].
Qed.

(** X30: The flags are distinct single bits, so that a union of members keeps
    them apart: a member other than [NONE] is in the union of a list of
    members exactly when it is in the list, and [NONE] is in every union. *)
Theorem union_contains (fs : list VacuumEntityFeature) (f : VacuumEntityFeature) :
  contains (union fs) f = true <-> f = NONE \/ In f fs.
Proof.
  unfold contains. rewrite Z.eqb_eq. unfold value at 1 2.
  destruct (shift f) as [n|] eqn:Hf.
  - pose proof (shift_nonneg f n Hf) as Hn.
    rewrite (land_bit _ n Hn), (testbit_union fs n Hn), existsb_exists. split.
    + intros (g & Hin & Hg). right. apply bool_decide_eq_true in Hg.
      by rewrite (shift_injective f g n Hf Hg).
    + intros [->|Hin]; [discriminate Hf|].
      exists f. split; [exact Hin|]. by apply bool_decide_eq_true.
  - rewrite Z.land_0_r. split; [|done]. intros _. left. by destruct f.
Qed.

(** [STATUS] and [STATE] are one member; every other pair of distinct
    members has distinct values. *)
Theorem value_injective (f g : VacuumEntityFeature) :
  value f = value g -> f = g.
Proof. destruct f, g; intros H; try reflexivity; discriminate H. Qed.

Lemma value_injective_witness : STATUS = STATE.
Proof. apply (value_injective STATUS STATE). reflexivity. Defined.

End FeaturesProofs.
